(** * Network-FQDN-Generator: hostname normalisation and DNS-consistency records

    A shallow embedding of [fqdn_generator.py] and [settings.py].

    Modelling conventions.
    - Python [str] values are Rocq [string]s (ASCII text: [lower] and
      [strip] act on the ASCII range, other bytes pass through unchanged).
    - Python dictionaries ([INTERFACE_MAP], the CSV rows) are [gmap string _].
    - [raise Exception(msg)] is the value [Exception msg]; [IndexError] and
      [KeyError] are the interpreter's own exceptions.
    - [logging.*] calls append to a list of log records; code that logs and may
      raise lives in the monad [M].
    - [socket.gethostbyname] and [socket.gethostbyaddr] are the fields of a
      [resolver] passed to the constructor. *)

From Stdlib Require Import Ascii String NArith DecimalString Permutation.
From stdpp Require Import gmap strings list.

Local Open Scope string_scope.
Local Open Scope list_scope.
Local Open Scope N_scope.

(** ** Python string primitives *)

Module Py.

Definition is_upper (c : ascii) : bool :=
  (65 <=? N_of_ascii c) && (N_of_ascii c <=? 90).

Definition is_az (c : ascii) : bool :=
  (97 <=? N_of_ascii c) && (N_of_ascii c <=? 122).

Definition is_digit (c : ascii) : bool :=
  (48 <=? N_of_ascii c) && (N_of_ascii c <=? 57).

(** Characters removed by [str.strip()] in the ASCII range:
    TAB, LF, VT, FF, CR, the separators FS, GS, RS, US and the space. *)
Definition is_space (c : ascii) : bool :=
  let n := N_of_ascii c in
  ((9 <=? n) && (n <=? 13)) || ((28 <=? n) && (n <=? 32)).

Definition lower_char (c : ascii) : ascii :=
  if is_upper c then ascii_of_N (N_of_ascii c + 32) else c.

(** [s.lower()] on text of the ASCII range.  On other characters Python
    lowers by the Unicode tables and by context; such text is outside this
    model, and the statements that depend on it say so. *)
Fixpoint lower (s : string) : string :=
  match s with
  | EmptyString => EmptyString
  | String c s' => String (lower_char c) (lower s')
  end.

(** [c in s] for a one-character [c]; [s.find(c) >= 0] is the same test. *)
Fixpoint contains_char (c : ascii) (s : string) : bool :=
  match s with
  | EmptyString => false
  | String d s' => if Ascii.eqb d c then true else contains_char c s'
  end.

(** [s.split(sep)] for a one-character separator: never the empty list. *)
Fixpoint split (sep : ascii) (s : string) : list string :=
  match s with
  | EmptyString => [EmptyString]
  | String c s' =>
      if Ascii.eqb c sep then EmptyString :: split sep s'
      else match split sep s' with
           | [] => [String c EmptyString]
           | w :: ws => String c w :: ws
           end
  end.

(** [old] is a prefix of [s]: [s.startswith(old)]. *)
Fixpoint startswith (old s : string) : bool :=
  match old, s with
  | EmptyString, _ => true
  | String a old', String b s' => Ascii.eqb a b && startswith old' s'
  | String _ _, EmptyString => false
  end.

(** Left-to-right scan of [s.replace(old, new)] for a non-empty [old]:
    [skip] counts the characters of the current occurrence still to drop. *)
Fixpoint replace_from (old new : string) (skip : nat) (s : string) : string :=
  match s with
  | EmptyString => EmptyString
  | String c s' =>
      match skip with
      | S k => replace_from old new k s'
      | O =>
          if startswith old s
          then new +:+ replace_from old new (Nat.pred (String.length old)) s'
          else String c (replace_from old new O s')
      end
  end.

(** An empty [old] matches between any two characters and at both ends. *)
Fixpoint intersperse (new s : string) : string :=
  match s with
  | EmptyString => new
  | String c s' => new +:+ String c (intersperse new s')
  end.

(** [s.replace(old, new)] *)
Definition replace (old new s : string) : string :=
  match old with
  | EmptyString => intersperse new s
  | String _ _ => replace_from old new O s
  end.

Fixpoint lstrip (s : string) : string :=
  match s with
  | EmptyString => EmptyString
  | String c s' => if is_space c then lstrip s' else s
  end.

Fixpoint rstrip (s : string) : string :=
  match s with
  | EmptyString => EmptyString
  | String c s' =>
      match rstrip s' with
      | EmptyString => if is_space c then EmptyString else String c EmptyString
      | r => String c r
      end
  end.

(** [s.strip()] *)
Definition strip (s : string) : string := lstrip (rstrip s).

(** Longest prefix whose characters satisfy [p], and the remainder. *)
Fixpoint span (p : ascii -> bool) (s : string) : string * string :=
  match s with
  | EmptyString => (EmptyString, EmptyString)
  | String c s' =>
      if p c then let (w, r) := span p s' in (String c w, r)
      else (EmptyString, s)
  end.

(** Suffix of [s] starting at its first character satisfying [p]. *)
Fixpoint from_first (p : ascii -> bool) (s : string) : option string :=
  match s with
  | EmptyString => None
  | String c s' => if p c then Some s else from_first p s'
  end.

End Py.

(** ** Exceptions, log records and the monad of logging, fallible code *)

Inductive exn : Type :=
| Exception (msg : string)
| IndexError
| KeyError (key : string).

Inductive level : Type := DEBUG | INFO | WARNING.

Definition log_record : Type := level * string.

Definition result (A : Type) : Type := exn + A.

Definition M (A : Type) : Type := list log_record * result A.

Definition ret {A} (a : A) : M A := ([], inr a).
Definition raise {A} (e : exn) : M A := ([], inl e).
Definition log (l : level) (msg : string) : M unit := ([(l, msg)], inr tt).
Definition lift {A} (r : result A) : M A := ([], r).

Definition bind {A B} (m : M A) (k : A -> M B) : M B :=
  match m with
  | (w, inl e) => (w, inl e)
  | (w, inr a) => let (w', r) := k a in (w ++ w', r)
  end.

(** [try: m  except Exception as error: h error] *)
Definition try_except {A} (m : M A) (h : exn -> M A) : M A :=
  match m with
  | (w, inl e) => let (w', r) := h e in (w ++ w', r)
  | (w, inr a) => (w, inr a)
  end.

Notation "'let*' x ':=' m 'in' k" := (bind m (fun x => k))
  (at level 10, x name, m at level 100, k at level 200).

(** [l[0]] *)
Definition item0 {A} (l : list A) : result A :=
  match l with
  | [] => inl IndexError
  | x :: _ => inr x
  end.

(** ** settings.py *)

Record settings : Type := {
  DEFAULT_DOMAIN : string;
  INTERFACE_MAP : gmap string string;
  MULTITHREAD : bool;
  PREFER_INTERFACE_FQDN_PTR : bool;
  SAVE_TO_CSV : bool
}.

Definition shipped_interface_map : gmap string string :=
  list_to_map
    [ ("cellular", "ce");
      ("fortygigabitethernet", "fo");
      ("fortygige", "fo");
      ("tengigabitethernet", "te");
      ("gigabitethernet", "gi");
      ("fastethernet", "fa");
      ("ethernet", "et");
      ("ge", "gi");
      ("loopback", "lo");
      ("loop", "lo");
      ("multilink", "mu");
      ("port-channel", "po");
      ("portchannel", "po");
      ("ether-channel", "po");
      ("etherchannel", "po");
      ("serial", "se");
      ("tunnel", "tu");
      ("vlan", "vl");
      ("bvi", "bv") ].

Definition shipped : settings := {|
  DEFAULT_DOMAIN := "gatesint.com";
  INTERFACE_MAP := shipped_interface_map;
  MULTITHREAD := true;
  PREFER_INTERFACE_FQDN_PTR := true;
  SAVE_TO_CSV := true
|}.

(** The same settings with [MULTITHREAD] switched off. *)
Definition one_thread (s : settings) : settings := {|
  DEFAULT_DOMAIN := DEFAULT_DOMAIN s;
  INTERFACE_MAP := INTERFACE_MAP s;
  MULTITHREAD := false;
  PREFER_INTERFACE_FQDN_PTR := PREFER_INTERFACE_FQDN_PTR s;
  SAVE_TO_CSV := SAVE_TO_CSV s
|}.

(** ** The identifier normaliser *)

(** [_clean_device_hostname] *)
Definition _clean_device_hostname (hostname : string) : string :=
  let hostname := Py.lower hostname in
  let hostname :=
    if Py.contains_char "." hostname
    then nth 0 (Py.split "." hostname) EmptyString
    else hostname in
  let hostname := Py.replace "_" "-" hostname in
  let hostname := Py.replace "--" "-" hostname in
  let hostname := Py.replace "--" "-" hostname in
  hostname.

(** The separator substitutions at the head of [_clean_interface_hostname]. *)
Definition normalize_separators (interface : string) : string :=
  let interface := Py.lower interface in
  let interface := Py.replace "_" "-" interface in
  let interface := Py.replace "." "-" interface in
  let interface := Py.replace ":" "-" interface in
  let interface := Py.replace "/" "-" interface in
  let interface := Py.replace "--" "-" interface in
  let interface := Py.replace "--" "-" interface in
  interface.

(** [re.findall('^[a-z]+-[a-z]+|^[a-z]+', interface)].  Both alternatives are
    anchored at the start of the string, so there is at most one match.  The
    first alternative can only succeed with the whole leading run of letters
    (a shorter run is followed by a letter, not by the dash), and its second
    run is greedy; when it fails the second alternative takes the leading
    run. *)
Definition findall_interface_type (interface : string) : list string :=
  let (w1, r1) := Py.span Py.is_az interface in
  match w1 with
  | EmptyString => []
  | String _ _ =>
      match r1 with
      | String "-" r2 =>
          match fst (Py.span Py.is_az r2) with
          | EmptyString => [w1]
          | String _ _ as w2 => [w1 +:+ "-" +:+ w2]
          end
      | _ => [w1]
      end
  end.

(** [re.findall('[0-9].*', interface)].  The dot does not match a line feed,
    so each line holding a digit contributes the rest of that line from its
    first digit. *)
Definition findall_interface_number (interface : string) : list string :=
  omap (Py.from_first Py.is_digit) (Py.split "010" interface).

(** [_clean_interface_hostname] *)
Definition _clean_interface_hostname
    (s : settings) (hostname interface : string) : result string :=
  let interface := normalize_separators interface in
  match item0 (findall_interface_type interface) with
  | inl e => inl e
  | inr interface_type =>
      let interface_number :=
        match item0 (findall_interface_number interface) with
        | inl _ => EmptyString
        | inr n => n
        end in
      match INTERFACE_MAP s !! interface_type with
      | None =>
          inl (Exception ("Interface type '" +:+ interface_type +:+
                          "' not found in 'INTERFACE_MAP' global settings."))
      | Some interface_type =>
          if (String.length interface_number =? 0)%nat
          then inr (hostname +:+ "-" +:+ interface_type)
          else inr (hostname +:+ "-" +:+ interface_type +:+ "-" +:+
                    interface_number)
      end
  end.

(** ** The [ipaddress] library, as far as the constructor uses it

    The parser follows the library since CPython 3.9.5, where an octet with a
    leading zero is refused. *)

Module ipaddress.

(** An address object holds its 32-bit integer [_ip]. *)
Record IPv4Address : Type := { _ip : N }.

Fixpoint int_of_digits (acc : N) (s : string) : N :=
  match s with
  | EmptyString => acc
  | String c s' => int_of_digits (10 * acc + (N_of_ascii c - 48)) s'
  end.

Fixpoint all_digits (s : string) : bool :=
  match s with
  | EmptyString => true
  | String c s' => Py.is_digit c && all_digits s'
  end.

(** [_parse_octet]: one to three ASCII digits, no leading zero unless the
    octet is the single digit zero, value at most 255. *)
Definition _parse_octet (octet_str : string) : option N :=
  match octet_str with
  | EmptyString => None
  | String c rest =>
      if negb (all_digits octet_str) then None
      else if (3 <? String.length octet_str)%nat then None
      else if Ascii.eqb c "0" && negb (String.eqb octet_str "0") then None
      else
        let octet_int := int_of_digits 0 octet_str in
        if 255 <? octet_int then None else Some octet_int
  end.

(** [int.from_bytes(octets, 'big')] *)
Definition from_bytes (octets : list N) : N :=
  fold_left (fun acc b => 256 * acc + b) octets 0.

(** [IPv4Address(address)] for a string argument; [None] stands for
    [AddressValueError]. *)
Definition parse (address : string) : option IPv4Address :=
  if Py.contains_char "/" address then None
  else
    match address with
    | EmptyString => None
    | String _ _ =>
        let octets := Py.split "." address in
        if negb (length octets =? 4)%nat then None
        else
          match mapM _parse_octet octets with
          | None => None
          | Some bytes => Some {| _ip := from_bytes bytes |}
          end
    end.

(** [ip_int.to_bytes(4, 'big')] *)
Definition to_bytes (ip_int : N) : list N :=
  [ (ip_int / 16777216) mod 256; (ip_int / 65536) mod 256;
    (ip_int / 256) mod 256; ip_int mod 256 ].

(** [str(n)] for a natural number. *)
Definition str_of_N (n : N) : string :=
  NilEmpty.string_of_uint (N.to_uint n).

(** ['.'.join(words)] *)
Fixpoint join_dots (words : list string) : string :=
  match words with
  | [] => EmptyString
  | [w] => w
  | w :: ws => w +:+ "." +:+ join_dots ws
  end.

(** [address.compressed], the dotted-quad text. *)
Definition compressed (a : IPv4Address) : string :=
  join_dots (map str_of_N (to_bytes (_ip a))).

(** [address.reverse_pointer] *)
Definition reverse_pointer (a : IPv4Address) : string :=
  join_dots (rev (Py.split "." (compressed a))) +:+ ".in-addr.arpa".

End ipaddress.

(** ** Values handed to the constructor, and the resolver *)

Inductive value : Type :=
| VNone
| VStr (s : string)
| VIPv4Address (a : ipaddress.IPv4Address)
| VInt (n : N).

(** [str(v)], as the f-strings of the log messages format it. *)
Definition py_str (v : value) : string :=
  match v with
  | VNone => "None"
  | VStr s => s
  | VIPv4Address a => ipaddress.compressed a
  | VInt n => ipaddress.str_of_N n
  end.

(** [str(error)] *)
Definition exn_str (e : exn) : string :=
  match e with
  | Exception msg => msg
  | IndexError => "list index out of range"
  | KeyError key => "'" +:+ key +:+ "'"
  end.

(** The answer of one [socket] call: the resolved text, or the text of the
    exception it raised. *)
Inductive answer : Type :=
| Resolved (info : string)
| LookupError (error : string).

(** [gethostbyaddr] stands for [socket.gethostbyaddr(ip)[0]], the primary
    host name of the answer. *)
Record resolver : Type := {
  gethostbyname : string -> answer;
  gethostbyaddr : string -> answer
}.

(** ** [class Address_FQDN] *)

Record Address_FQDN : Type := {
  ipv4_address : ipaddress.IPv4Address;
  ip_address : string;
  hostname : string;
  domain : string;
  full_name : string;
  forward_lookup_exists : bool;
  forward_lookup_needs_update : bool;
  forward_lookup_existing_value : option string;
  reverse_lookup_exists : bool;
  reverse_lookup_needs_update : bool;
  reverse_lookup_existing_value : option string;
  ptr_record : string
}.

Section Constructor.

Variable s : settings.
Variable dns : resolver.

(** The [ipv4_address] block of [__init__]. *)
Definition init_ipv4_address (ipv4_address hostname : value)
  : M ipaddress.IPv4Address :=
  match ipv4_address with
  | VStr text =>
      match ipaddress.parse text with
      | Some a => ret a
      | None =>
          let* _ := log WARNING (py_str hostname +:+
                      " - Please provide a properly formatted IP Address.") in
          raise (Exception "Improper argument:  ipv4_address")
      end
  | VIPv4Address a => ret a
  | _ =>
      let* _ := log WARNING (py_str hostname +:+
        " - Please provide an IP Address as a str() or IPv4Address() object.") in
      raise (Exception "Improper argument:  ipv4_address")
  end.

(** The [hostname] block: the length test reads the raw argument, the
    field is the argument stripped and lowercased. *)
Definition init_hostname (hostname : value) : M string :=
  match hostname with
  | VStr h =>
      if (String.length h =? 0)%nat
      then
        let* _ := log WARNING (py_str hostname +:+
                    " - Please provide a properly formatted hostname.") in
        raise (Exception "Improper argument:  hostname")
      else ret (Py.lower (Py.strip h))
  | _ =>
      let* _ := log WARNING (py_str hostname +:+
                  " - Please provide a properly formatted hostname.") in
      raise (Exception "Improper argument:  hostname")
  end.

(** The [domain] block. *)
Definition init_domain (hostname domain : value) : M string :=
  let* domain :=
    match domain with
    | VNone => ret (DEFAULT_DOMAIN s)
    | VStr d =>
        if (String.length d =? 0)%nat
        then
          let* _ := log INFO (py_str hostname +:+
            " - Zero-length domain name provided, setting it to the default: "
            +:+ DEFAULT_DOMAIN s +:+ ".") in
          ret (DEFAULT_DOMAIN s)
        else ret d
    | _ =>
        let* _ := log WARNING (py_str hostname +:+
                    " - If providing a domain, please properly format it.") in
        raise (Exception "Improper argument:  domain")
    end in
  ret (Py.lower (Py.strip domain)).

(** The forward lookup: [(exists, needs_update, existing_value)]. *)
Definition init_forward_lookup (full_name ip_address : string)
  : M (bool * bool * option string) :=
  match gethostbyname dns full_name with
  | Resolved address_info =>
      if String.eqb address_info ip_address
      then ret (true, false, Some address_info)
      else ret (true, true, Some address_info)
  | LookupError error =>
      let* _ := log INFO (full_name +:+ " : " +:+ error) in
      ret (false, true, None)
  end.

(** The reverse lookup: [(exists, needs_update, existing_value)]. *)
Definition init_reverse_lookup (full_name hostname ip_address : string)
  : M (bool * bool * option string) :=
  match gethostbyaddr dns ip_address with
  | Resolved hostname_info =>
      if String.eqb hostname_info full_name
      then ret (true, false, Some hostname_info)
      else if Py.startswith (hostname +:+ "-") hostname_info
              && PREFER_INTERFACE_FQDN_PTR s
      then ret (true, false, Some hostname_info)
      else ret (true, true, Some hostname_info)
  | LookupError error =>
      let* _ := log INFO (full_name +:+ " : " +:+ error) in
      ret (false, true, None)
  end.

(** [Address_FQDN.__init__] *)
Definition Address_FQDN_init (ipv4_address hostname domain : value)
  : M Address_FQDN :=
  let* ipv4_address := init_ipv4_address ipv4_address hostname in
  let ip_address := Py.strip (ipaddress.compressed ipv4_address) in
  let* self_hostname := init_hostname hostname in
  let* domain := init_domain hostname domain in
  let full_name := self_hostname +:+ "." +:+ domain in
  let* fwd := init_forward_lookup full_name ip_address in
  let* rvs := init_reverse_lookup full_name self_hostname ip_address in
  ret {| ipv4_address := ipv4_address;
         ip_address := ip_address;
         hostname := self_hostname;
         domain := domain;
         full_name := full_name;
         forward_lookup_exists := fst (fst fwd);
         forward_lookup_needs_update := snd (fst fwd);
         forward_lookup_existing_value := snd fwd;
         reverse_lookup_exists := fst (fst rvs);
         reverse_lookup_needs_update := snd (fst rvs);
         reverse_lookup_existing_value := snd rvs;
         ptr_record := ipaddress.reverse_pointer ipv4_address |}.

End Constructor.

(** ** The batch coordinator [main]

    The model starts at [address_table], the list of row dictionaries that
    [tools.table_to_dictionary] hands over, and ends at the returned
    dictionary; the file dialogs and the CSV writer are left out. *)

(** [d[key]] on a dictionary of strings. *)
Definition getitem (d : gmap string string) (key : string) : result string :=
  match d !! key with
  | Some v => inr v
  | None => inl (KeyError key)
  end.

(** The keyword arguments [address_data] of the second loop. *)
Record address_data : Type := {
  kw_ipv4_address : value;
  kw_hostname : value;
  kw_domain : value
}.

(** [{'status': ..., 'data': ...}] *)
Record main_return : Type := {
  status : bool;
  data : option (list Address_FQDN)
}.

(** [for x in xs: acc = body acc x], in the monad. *)
Fixpoint for_each {A B} (body : B -> A -> M B) (xs : list A) (acc : B) : M B :=
  match xs with
  | [] => ret acc
  | x :: xs' => let* acc' := body acc x in for_each body xs' acc'
  end.

Section Main.

Variable s : settings.
Variable dns : resolver.

(** Body of the first loop: the row after its in-place updates. *)
Definition clean_row (address : gmap string string)
  : M (gmap string string) :=
  let* device_hostname := lift (getitem address "device_hostname") in
  let address :=
    <["device_hostname" := _clean_device_hostname device_hostname]> address in
  match address !! "interface_name" with
  | Some interface_name =>
      if (0 <? String.length interface_name)%nat
      then
        try_except
          (let* device_hostname := lift (getitem address "device_hostname") in
           let* cleaned :=
             lift (_clean_interface_hostname s device_hostname interface_name) in
           ret (<["device_hostname" := cleaned]> address))
          (fun error =>
             let* device_hostname := lift (getitem address "device_hostname") in
             let* ip := lift (getitem address "ip_address") in
             let* _ := log WARNING
               ("Object data build failed on:  " +:+ device_hostname +:+ " - "
                +:+ ip +:+ String "010" (exn_str error)) in
             ret address)
      else ret address
  | None => ret address
  end.

(** Body of the second loop: the row replaced by its keyword arguments. *)
Definition to_address_data (address : gmap string string)
  : result address_data :=
  match getitem address "ip_address" with
  | inl e => inl e
  | inr ip =>
      match getitem address "device_hostname" with
      | inl e => inl e
      | inr device_hostname =>
          inr {| kw_ipv4_address := VStr ip;
                 kw_hostname := VStr device_hostname;
                 kw_domain :=
                   match address !! "domain" with
                   | Some d => VStr d
                   | None => VNone
                   end |}
      end
  end.

(** Both preparation loops over the whole table. *)
Definition prepare (address_table : list (gmap string string))
  : M (list address_data) :=
  let* cleaned :=
    for_each (fun acc address =>
                let* address := clean_row address in ret (acc ++ [address]))
             address_table [] in
  for_each (fun acc address =>
              let* kw := lift (to_address_data address) in ret (acc ++ [kw]))
           cleaned [].

(** The constructor called with the keyword arguments of one row. *)
Definition construct (address : address_data) : M Address_FQDN :=
  Address_FQDN_init s dns
    (kw_ipv4_address address) (kw_hostname address) (kw_domain address).

(** Body of the sequential loop ([MULTITHREAD] off). *)
Definition build_one (address_objects : list Address_FQDN)
    (address : address_data) : M (list Address_FQDN) :=
  try_except
    (let* obj := construct address in ret (address_objects ++ [obj]))
    (fun error =>
       let* _ := log WARNING
         ("Object data build failed on:  " +:+ py_str (kw_hostname address)
          +:+ " - " +:+ py_str (kw_ipv4_address address)
          +:+ String "010" (exn_str error)) in
       ret address_objects).

(** [main] with [MULTITHREAD] off: one thread, rows in table order. *)
Definition main_sequential (address_table : list (gmap string string))
  : M main_return :=
  if (length address_table =? 0)%nat
  then
    let* _ := log WARNING "No data was provided." in
    ret {| status := false; data := None |}
  else
    let* table := prepare address_table in
    let* address_objects := for_each build_one table [] in
    ret {| status := true; data := Some address_objects |}.

(** The records that the workers of the pool append: one per row whose
    construction returns; an exception stays in the worker's future. *)
Definition built (table : list address_data) : list Address_FQDN :=
  omap (fun address =>
          match snd (construct address) with
          | inr obj => Some obj
          | inl _ => None
          end) table.

(** What [main] may return, or the exception that leaves it.  With
    [MULTITHREAD] on, the pool is joined before the list is read and the
    records are in the order in which the workers finished. *)
Inductive main_returns (address_table : list (gmap string string))
  : result main_return -> Prop :=
| main_one_thread :
    MULTITHREAD s = false ->
    main_returns address_table (snd (main_sequential address_table))
| main_no_data :
    MULTITHREAD s = true ->
    address_table = [] ->
    main_returns address_table (inr {| status := false; data := None |})
| main_key_error e :
    MULTITHREAD s = true ->
    address_table <> [] ->
    snd (prepare address_table) = inl e ->
    main_returns address_table (inl e)
| main_pool table address_objects :
    MULTITHREAD s = true ->
    address_table <> [] ->
    snd (prepare address_table) = inr table ->
    Permutation (built table) address_objects ->
    main_returns address_table
      (inr {| status := true; data := Some address_objects |}).

End Main.

(** ** Vocabulary of the specification *)

(** The error taxonomy, by the text each exception carries. *)
Definition InvalidAddress : exn := Exception "Improper argument:  ipv4_address".
Definition InvalidHostname : exn := Exception "Improper argument:  hostname".
Definition UnknownInterfaceType (interface_type : string) : exn :=
  Exception ("Interface type '" +:+ interface_type +:+
             "' not found in 'INTERFACE_MAP' global settings.").

(** The lookup classification, read off the three attributes of a record. *)
Inductive lookup_status : Type :=
| NotFound
| MatchesExpected
| MatchesPreferredAlternate
| ExistsButDiffers.

Definition forward_lookup (r : Address_FQDN) : lookup_status :=
  if negb (forward_lookup_exists r) then NotFound
  else if forward_lookup_needs_update r then ExistsButDiffers
  else MatchesExpected.

Definition reverse_lookup (r : Address_FQDN) : lookup_status :=
  if negb (reverse_lookup_exists r) then NotFound
  else if reverse_lookup_needs_update r then ExistsButDiffers
  else match reverse_lookup_existing_value r with
       | Some name =>
           if String.eqb name (full_name r) then MatchesExpected
           else MatchesPreferredAlternate
       | None => MatchesPreferredAlternate
       end.

(** Canonical form of a device hostname: no uppercase letter, no dot, no
    underscore, no two dashes in a row. *)
Fixpoint has_double_dash (h : string) : bool :=
  match h with
  | EmptyString => false
  | String c h' =>
      (Ascii.eqb c "-" && Py.startswith "-" h') || has_double_dash h'
  end.

Fixpoint all_chars (p : ascii -> bool) (h : string) : bool :=
  match h with
  | EmptyString => true
  | String c h' => p c && all_chars p h'
  end.

Definition canonical_char (c : ascii) : bool :=
  negb (Py.is_upper c) && negb (Ascii.eqb c ".") && negb (Ascii.eqb c "_").

Definition canonical (h : string) : bool :=
  all_chars canonical_char h && negb (has_double_dash h).

(** A run of [n] dashes. *)
Fixpoint dashes (n : nat) : string :=
  match n with
  | O => EmptyString
  | S k => String "-" (dashes k)
  end.

(** Length of a run of [n] dashes after one pass of [replace('--', '-')]:
    each pair becomes one dash, a last single dash stays. *)
Fixpoint half_up (n : nat) : nat :=
  match n with
  | S (S k) => S (half_up k)
  | _ => n
  end.


(** The last character of [h] satisfies [p]. *)
Fixpoint ends_with (p : ascii -> bool) (h : string) : bool :=
  match h with
  | EmptyString => false
  | String c h' =>
      match h' with
      | EmptyString => p c
      | String _ _ => ends_with p h'
      end
  end.

(** The first character of [h] satisfies [p]. *)
Definition begins_with (p : ascii -> bool) (h : string) : bool :=
  match h with
  | EmptyString => false
  | String c _ => p c
  end.

(** The part of [h] before its first dot, [h] itself when it has none: the
    second step of [_clean_device_hostname]. *)
Definition first_label (h : string) : string :=
  if Py.contains_char "." h then nth 0 (Py.split "." h) EmptyString else h.


(** The normalised interface text begins with one of [a-z]. *)
Definition starts_with_letter (interface : string) : bool :=
  match interface with
  | EmptyString => false
  | String c _ => Py.is_az c
  end.

(** A row carries the two mandatory columns. *)
Definition has_required_keys (address : gmap string string) : Prop :=
  is_Some (address !! "ip_address") /\ is_Some (address !! "device_hostname").

(** ** Sample inputs *)

Definition no_dns : resolver := {|
  gethostbyname := fun _ => LookupError "[Errno 11001] getaddrinfo failed";
  gethostbyaddr := fun _ => LookupError "[Errno 11004] host not found"
|}.

(** A zone where [sw1.gatesint.com] has the address [10.0.0.1], whose PTR
    names the interface [sw1-gi-0-1]. *)
Definition interface_ptr_dns : resolver := {|
  gethostbyname := fun name =>
    if String.eqb name "sw1.gatesint.com" then Resolved "10.0.0.1"
    else LookupError "[Errno 11001] getaddrinfo failed";
  gethostbyaddr := fun ip =>
    if String.eqb ip "10.0.0.1" then Resolved "sw1-gi-0-1.gatesint.com"
    else LookupError "[Errno 11004] host not found"
|}.

Definition row_wireless : gmap string string :=
  {[ "ip_address" := "10.0.0.1"; "device_hostname" := "sw1";
     "interface_name" := "Wireless0" ]}.

Definition row_plain : gmap string string :=
  {[ "ip_address" := "10.0.0.2"; "device_hostname" := "SW2.gatesint.com" ]}.

(** A row whose address does not parse. *)
Definition row_bad_address : gmap string string :=
  {[ "ip_address" := "10.0.0.256"; "device_hostname" := "sw3" ]}.

(** The record of [sw1] at [10.0.0.1] when no lookup succeeds. *)
Definition record_sw1_no_dns : Address_FQDN := {|
  ipv4_address := {| ipaddress._ip := 167772161 |};
  ip_address := "10.0.0.1";
  hostname := "sw1";
  domain := "gatesint.com";
  full_name := "sw1.gatesint.com";
  forward_lookup_exists := false;
  forward_lookup_needs_update := true;
  forward_lookup_existing_value := None;
  reverse_lookup_exists := false;
  reverse_lookup_needs_update := true;
  reverse_lookup_existing_value := None;
  ptr_record := "1.0.0.10.in-addr.arpa"
|}.

(** The record of [sw1] at [10.0.0.1] in the zone [interface_ptr_dns]. *)
Definition record_sw1_interface_ptr : Address_FQDN := {|
  ipv4_address := {| ipaddress._ip := 167772161 |};
  ip_address := "10.0.0.1";
  hostname := "sw1";
  domain := "gatesint.com";
  full_name := "sw1.gatesint.com";
  forward_lookup_exists := true;
  forward_lookup_needs_update := false;
  forward_lookup_existing_value := Some "10.0.0.1";
  reverse_lookup_exists := true;
  reverse_lookup_needs_update := false;
  reverse_lookup_existing_value := Some "sw1-gi-0-1.gatesint.com";
  ptr_record := "1.0.0.10.in-addr.arpa"
|}.

(** ** [tools.table_to_dictionary] *)

(** [dict(pairs)]: the pairs are entered from left to right, a later pair
    with the same key overwrites the earlier one. *)
Definition dict (pairs : list (string * string)) : gmap string string :=
  fold_left (fun d kv => <[fst kv := snd kv]> d) pairs ∅.

(** [table_to_dictionary]: the first row of the table names the columns;
    [table[0]] raises on the empty table. *)
Definition table_to_dictionary (table : list (list string))
  : result (list (gmap string string)) :=
  match table with
  | [] => inl IndexError
  | columns :: rows => inr (map (fun row => dict (zip columns row)) rows)
  end.

(** [main] from the rows read in the CSV file: the table is converted, then
    handed to the loops of [main]. *)
Definition main_returns_from_csv (s : settings) (dns : resolver)
    (csv_file : list (list string)) (out : result main_return) : Prop :=
  match table_to_dictionary csv_file with
  | inl e => out = inl e
  | inr address_table => main_returns s dns address_table out
  end.

(** ** More vocabulary *)

(** Characters that the separator substitutions leave in an interface text:
    no uppercase letter, underscore, dot, colon or slash. *)
Definition interface_char (c : ascii) : bool :=
  negb (Py.is_upper c) && negb (Ascii.eqb c "_") && negb (Ascii.eqb c ".")
  && negb (Ascii.eqb c ":") && negb (Ascii.eqb c "/").

(** A character of the ASCII range, where [str.lower()] is the map of
    [Py.lower_char] on each character; outside it Python lowers by the
    Unicode tables, which [Py.lower] does not follow. *)
Definition is_ascii (c : ascii) : bool := N_of_ascii c <? 128.

(** The argument checks of the constructor pass: the address is an address
    object or a text that parses, the hostname a string of at least one
    character, the domain absent or a string. *)
Definition address_argument_ok (a : value) : bool :=
  match a with
  | VStr text =>
      match ipaddress.parse text with
      | Some _ => true
      | None => false
      end
  | VIPv4Address _ => true
  | _ => false
  end.

Definition hostname_argument_ok (h : value) : bool :=
  match h with
  | VStr EmptyString => false
  | VStr _ => true
  | _ => false
  end.

Definition domain_argument_ok (d : value) : bool :=
  match d with
  | VNone | VStr _ => true
  | _ => false
  end.

(** * Properties *)

(** ** Python string primitives *)

Lemma ascii_eqb_sym (a b : ascii) : Ascii.eqb a b = Ascii.eqb b a.
Proof.
  destruct (Ascii.eqb_spec a b) as [->|Hne].
  - symmetry. apply Ascii.eqb_refl.
  - symmetry. apply Ascii.eqb_neq. congruence.
Qed.

Lemma lower_fixed (h : string) :
  all_chars (fun c => negb (Py.is_upper c)) h = true -> Py.lower h = h.
Proof.
  induction h as [|c h IH]; simpl; [reflexivity|].
  intros [Hc Hh]%andb_true_iff.
  unfold Py.lower_char. apply negb_true_iff in Hc. rewrite Hc.
  f_equal. auto.
Qed.

Lemma contains_char_absent (x : ascii) (h : string) :
  all_chars (fun c => negb (Ascii.eqb c x)) h = true ->
  Py.contains_char x h = false.
Proof.
  induction h as [|c h IH]; simpl; [reflexivity|].
  intros [Hc Hh]%andb_true_iff.
  apply negb_true_iff in Hc. rewrite Hc. auto.
Qed.

(** Replacing a character that does not occur changes nothing. *)
Lemma replace_char_absent (x : ascii) (new h : string) :
  all_chars (fun c => negb (Ascii.eqb c x)) h = true ->
  Py.replace (String x EmptyString) new h = h.
Proof.
  unfold Py.replace.
  induction h as [|c h IH]; simpl; [reflexivity|].
  intros [Hc Hh]%andb_true_iff.
  apply negb_true_iff in Hc. rewrite ascii_eqb_sym in Hc. rewrite Hc. simpl.
  f_equal. auto.
Qed.

(** Without two dashes in a row the collapse pass changes nothing. *)
Lemma replace_double_dash_absent (h : string) :
  has_double_dash h = false -> Py.replace "--" "-" h = h.
Proof.
  unfold Py.replace.
  induction h as [|c h IH]; [reflexivity|].
  intros H. cbn [has_double_dash] in H.
  apply orb_false_iff in H as [Hhead Htail].
  cbn [Py.replace_from].
  assert (Hsw : Py.startswith "--" (String c h) = false).
  { cbn [Py.startswith]. rewrite ascii_eqb_sym. exact Hhead. }
  rewrite Hsw. f_equal. auto.
Qed.

Lemma all_chars_weaken (p q : ascii -> bool) (h : string) :
  (forall c, p c = true -> q c = true) ->
  all_chars p h = true -> all_chars q h = true.
Proof.
  intros Hpq. induction h as [|c h IH]; simpl; [reflexivity|].
  intros [Hc Hh]%andb_true_iff. rewrite (Hpq _ Hc). auto.
Qed.

(** A canonical hostname is a fixed point of the device normaliser. *)
Lemma clean_device_hostname_canonical (h : string) :
  canonical h = true -> _clean_device_hostname h = h.
Proof.
  unfold canonical. intros [Hchars Hdd]%andb_true_iff.
  apply negb_true_iff in Hdd.
  assert (Hup : all_chars (fun c => negb (Py.is_upper c)) h = true).
  { revert Hchars. apply all_chars_weaken. unfold canonical_char.
    intros c Hc. apply andb_true_iff in Hc as [Hc _].
    apply andb_true_iff in Hc as [Hc _]. exact Hc. }
  assert (Hdot : all_chars (fun c => negb (Ascii.eqb c ".")) h = true).
  { revert Hchars. apply all_chars_weaken. unfold canonical_char.
    intros c Hc. apply andb_true_iff in Hc as [Hc _].
    apply andb_true_iff in Hc as [_ Hc]. exact Hc. }
  assert (Hus : all_chars (fun c => negb (Ascii.eqb c "_")) h = true).
  { revert Hchars. apply all_chars_weaken. unfold canonical_char.
    intros c Hc. apply andb_true_iff in Hc as [_ Hc]. exact Hc. }
  unfold _clean_device_hostname.
  rewrite (lower_fixed h Hup).
  rewrite (contains_char_absent "." h Hdot).
  rewrite (replace_char_absent "_" "-" h Hus).
  rewrite !(replace_double_dash_absent h Hdd).
  reflexivity.
Qed.

(** C8: on a hostname already in canonical form (lowercase, no dots, no
    underscores, no consecutive dashes) applying [_clean_device_hostname]
    twice gives the same result as applying it once. *)
Theorem clean_device_hostname_idempotent_on_canonical (h : string) :
  canonical h = true ->
  _clean_device_hostname (_clean_device_hostname h) = _clean_device_hostname h.
Proof.
  intros Hc. rewrite !(clean_device_hostname_canonical h Hc). reflexivity.
Qed.

Lemma clean_device_hostname_idempotent_witness :
  canonical "core-sw1" = true /\
  _clean_device_hostname (_clean_device_hostname "core-sw1")
  = _clean_device_hostname "core-sw1".
Proof.
  split; [reflexivity|].
  apply (clean_device_hostname_idempotent_on_canonical "core-sw1").
  reflexivity.
Defined.

(** ** The interface normaliser *)

(** C6: with the shipped abbreviation table, which maps [gigabitethernet] to
    [gi] and [port-channel] to [po], the interface [GigabitEthernet0/1] of
    [sw1] becomes [sw1-gi-0-1] and [Port-channel12] becomes [sw1-po-12]. *)
Theorem clean_interface_hostname_shipped_examples :
  INTERFACE_MAP shipped !! "gigabitethernet" = Some "gi" /\
  INTERFACE_MAP shipped !! "port-channel" = Some "po" /\
  _clean_interface_hostname shipped "sw1" "GigabitEthernet0/1"
  = inr "sw1-gi-0-1" /\
  _clean_interface_hostname shipped "sw1" "Port-channel12" = inr "sw1-po-12".
Proof. repeat split; vm_compute; reflexivity. Qed.

Lemma findall_interface_type_no_letter (interface : string) :
  starts_with_letter interface = false ->
  findall_interface_type interface = [].
Proof.
  unfold findall_interface_type.
  destruct interface as [|c rest]; [reflexivity|].
  cbn [starts_with_letter Py.span]. intros ->. reflexivity.
Qed.

(** C10: when the lowercased, separator-normalised interface text does not
    begin with a letter of [a-z], [_clean_interface_hostname] leaves with the
    [IndexError] of taking item 0 of the empty match list, whatever the
    device hostname and the abbreviation table, and so never with the
    unknown-interface-type exception. *)
Theorem clean_interface_hostname_index_error
    (s : settings) (hostname interface : string) :
  starts_with_letter (normalize_separators interface) = false ->
  _clean_interface_hostname s hostname interface = inl IndexError /\
  forall interface_type,
    _clean_interface_hostname s hostname interface
    <> inl (UnknownInterfaceType interface_type).
Proof.
  intros H.
  assert (E : _clean_interface_hostname s hostname interface = inl IndexError).
  { unfold _clean_interface_hostname.
    rewrite (findall_interface_type_no_letter _ H). reflexivity. }
  split; [exact E|].
  intros interface_type. rewrite E. discriminate.
Qed.

Lemma clean_interface_hostname_index_error_witness :
  starts_with_letter (normalize_separators "0/1") = false /\
  _clean_interface_hostname shipped "sw1" "0/1" = inl IndexError.
Proof.
  split; [reflexivity|].
  apply (clean_interface_hostname_index_error shipped "sw1" "0/1").
  reflexivity.
Defined.

(** An interface type outside the abbreviation table raises the
    unknown-interface-type exception naming it. *)
Lemma clean_interface_hostname_unknown_type
    (s : settings) (hostname interface interface_type : string) :
  item0 (findall_interface_type (normalize_separators interface))
  = inr interface_type ->
  INTERFACE_MAP s !! interface_type = None ->
  _clean_interface_hostname s hostname interface
  = inl (UnknownInterfaceType interface_type).
Proof.
  intros Hty Hmap. unfold _clean_interface_hostname.
  rewrite Hty, Hmap. reflexivity.
Qed.

(** ** The monad *)

Lemma snd_bind {A B} (m : M A) (k : A -> M B) :
  snd (bind m k)
  = match snd m with
    | inl e => inl e
    | inr a => snd (k a)
    end.
Proof.
  destruct m as [w [e|a]]; simpl; [reflexivity|].
  destruct (k a); reflexivity.
Qed.

Lemma snd_try_except {A} (m : M A) (h : exn -> M A) :
  snd (try_except m h)
  = match snd m with
    | inl e => snd (h e)
    | inr a => inr a
    end.
Proof.
  destruct m as [w [e|a]]; simpl; [|reflexivity].
  destruct (h e); reflexivity.
Qed.

(** ** The constructor *)

Lemma startswith_dash_not_dot (h d : string) :
  Py.startswith (h +:+ "-") (h +:+ "." +:+ d) = false.
Proof.
  induction h as [|c h IH]; [reflexivity|].
  change ((String c h +:+ "-")) with (String c (h +:+ "-")).
  change ((String c h +:+ "." +:+ d)) with (String c (h +:+ "." +:+ d)).
  cbn [Py.startswith].
  rewrite IH. apply andb_false_r.
Qed.

(** The two lookups never raise: their exceptions are caught on the spot. *)
Lemma init_forward_lookup_returns (dns : resolver) (fn ip : string) :
  exists t, snd (init_forward_lookup dns fn ip) = inr t /\
    match gethostbyname dns fn with
    | Resolved address_info =>
        t = (true, negb (String.eqb address_info ip), Some address_info)
    | LookupError _ => t = (false, true, None)
    end.
Proof.
  unfold init_forward_lookup.
  destruct (gethostbyname dns fn) as [info|err].
  - destruct (String.eqb info ip); eexists; split; reflexivity.
  - eexists; split; reflexivity.
Qed.

Lemma init_reverse_lookup_returns
    (s : settings) (dns : resolver) (fn hn ip : string) :
  exists t, snd (init_reverse_lookup s dns fn hn ip) = inr t /\
    match gethostbyaddr dns ip with
    | Resolved hostname_info =>
        t = (true,
             negb (String.eqb hostname_info fn
                   || (Py.startswith (hn +:+ "-") hostname_info
                       && PREFER_INTERFACE_FQDN_PTR s)),
             Some hostname_info)
    | LookupError _ => t = (false, true, None)
    end.
Proof.
  unfold init_reverse_lookup.
  destruct (gethostbyaddr dns ip) as [info|err].
  - destruct (String.eqb info fn); [eexists; split; reflexivity|].
    destruct (Py.startswith (hn +:+ "-") info && PREFER_INTERFACE_FQDN_PTR s);
      eexists; split; reflexivity.
  - eexists; split; reflexivity.
Qed.

(** What a returned record is made of. *)
Lemma Address_FQDN_init_returns
    (s : settings) (dns : resolver) (a h d : value) (r : Address_FQDN) :
  snd (Address_FQDN_init s dns a h d) = inr r ->
  exists ip hn dm fwd rvs,
    snd (init_ipv4_address a h) = inr ip /\
    snd (init_hostname h) = inr hn /\
    snd (init_domain s h d) = inr dm /\
    snd (init_forward_lookup dns (hn +:+ "." +:+ dm)
           (Py.strip (ipaddress.compressed ip))) = inr fwd /\
    snd (init_reverse_lookup s dns (hn +:+ "." +:+ dm) hn
           (Py.strip (ipaddress.compressed ip))) = inr rvs /\
    r = {| ipv4_address := ip;
           ip_address := Py.strip (ipaddress.compressed ip);
           hostname := hn;
           domain := dm;
           full_name := hn +:+ "." +:+ dm;
           forward_lookup_exists := fst (fst fwd);
           forward_lookup_needs_update := snd (fst fwd);
           forward_lookup_existing_value := snd fwd;
           reverse_lookup_exists := fst (fst rvs);
           reverse_lookup_needs_update := snd (fst rvs);
           reverse_lookup_existing_value := snd rvs;
           ptr_record := ipaddress.reverse_pointer ip |}.
Proof.
  unfold Address_FQDN_init. rewrite snd_bind.
  destruct (snd (init_ipv4_address a h)) as [e|ip]; [discriminate|].
  rewrite snd_bind.
  destruct (snd (init_hostname h)) as [e|hn]; [discriminate|].
  rewrite snd_bind.
  destruct (snd (init_domain s h d)) as [e|dm]; [discriminate|].
  rewrite snd_bind.
  destruct (snd (init_forward_lookup dns _ _)) as [e|fwd] eqn:Hf; [discriminate|].
  rewrite snd_bind.
  destruct (snd (init_reverse_lookup s dns _ _ _)) as [e|rvs] eqn:Hr;
    [discriminate|].
  cbn [snd ret]. intros [= <-].
  exists ip, hn, dm, fwd, rvs. repeat split; assumption.
Qed.

(** Whether the constructor returns does not depend on the resolver. *)
Lemma Address_FQDN_init_resolver_independent
    (s : settings) (dns dns' : resolver) (a h d : value) (r : Address_FQDN) :
  snd (Address_FQDN_init s dns a h d) = inr r ->
  exists r', snd (Address_FQDN_init s dns' a h d) = inr r' /\
    ip_address r' = ip_address r /\ hostname r' = hostname r /\
    domain r' = domain r /\ full_name r' = full_name r /\
    ptr_record r' = ptr_record r.
Proof.
  intros H.
  destruct (Address_FQDN_init_returns _ _ _ _ _ _ H)
    as (ip & hn & dm & fwd & rvs & Hip & Hhn & Hdm & _ & _ & ->).
  unfold Address_FQDN_init.
  rewrite snd_bind, Hip, snd_bind, Hhn, snd_bind, Hdm, snd_bind.
  destruct (init_forward_lookup_returns dns' (hn +:+ "." +:+ dm)
              (Py.strip (ipaddress.compressed ip))) as (fwd' & -> & _).
  rewrite snd_bind.
  destruct (init_reverse_lookup_returns s dns' (hn +:+ "." +:+ dm) hn
              (Py.strip (ipaddress.compressed ip))) as (rvs' & -> & _).
  eexists. split; [reflexivity|]. repeat split.
Qed.

(** C5: on every constructed record the forward lookup is classified by the
    answer for [full_name]: a failed lookup gives NotFound with no existing
    value, an answer equal to [ip_address] gives MatchesExpected, any other
    answer gives ExistsButDiffers, and the answer is kept as the existing
    value.  Whatever the resolver answers, the record is still produced. *)
Theorem forward_lookup_classification
    (s : settings) (dns : resolver) (a h d : value)
    (w : list log_record) (r : Address_FQDN) :
  Address_FQDN_init s dns a h d = (w, inr r) ->
  (forall error,
      gethostbyname dns (full_name r) = LookupError error ->
      forward_lookup r = NotFound /\
      forward_lookup_exists r = false /\
      forward_lookup_existing_value r = None) /\
  (forall address_info,
      gethostbyname dns (full_name r) = Resolved address_info ->
      forward_lookup_exists r = true /\
      forward_lookup_existing_value r = Some address_info /\
      (address_info = ip_address r ->
       forward_lookup r = MatchesExpected /\
       forward_lookup_needs_update r = false) /\
      (address_info <> ip_address r ->
       forward_lookup r = ExistsButDiffers /\
       forward_lookup_needs_update r = true)) /\
  (forall dns', exists w' r', Address_FQDN_init s dns' a h d = (w', inr r')).
Proof.
  intros H.
  assert (H' : snd (Address_FQDN_init s dns a h d) = inr r) by (rewrite H; reflexivity).
  split; [|split].
  - destruct (Address_FQDN_init_returns _ _ _ _ _ _ H')
      as (ip & hn & dm & fwd & rvs & _ & _ & _ & Hf & _ & ->).
    cbn [full_name]. intros error Herr.
    destruct (init_forward_lookup_returns dns (hn +:+ "." +:+ dm)
                (Py.strip (ipaddress.compressed ip))) as (t & Ht & Hcase).
    rewrite Hf in Ht. injection Ht as <-. rewrite Herr in Hcase. subst fwd.
    repeat split.
  - destruct (Address_FQDN_init_returns _ _ _ _ _ _ H')
      as (ip & hn & dm & fwd & rvs & _ & _ & _ & Hf & _ & ->).
    cbn [full_name ip_address]. intros info Hres.
    destruct (init_forward_lookup_returns dns (hn +:+ "." +:+ dm)
                (Py.strip (ipaddress.compressed ip))) as (t & Ht & Hcase).
    rewrite Hf in Ht. injection Ht as <-. rewrite Hres in Hcase. subst fwd.
    unfold forward_lookup.
    cbn [forward_lookup_exists forward_lookup_needs_update
         forward_lookup_existing_value fst snd negb].
    split; [reflexivity|]. split; [reflexivity|]. split.
    + intros ->. rewrite String.eqb_refl. split; reflexivity.
    + intros Hne. apply String.eqb_neq in Hne. rewrite Hne. split; reflexivity.
  - intros dns'.
    destruct (Address_FQDN_init_resolver_independent s dns dns' a h d r H')
      as (r' & Hr' & _).
    destruct (Address_FQDN_init s dns' a h d) as [w' res]. cbn [snd] in Hr'.
    subst res. exists w', r'. reflexivity.
Qed.

(** C4: on every constructed record the reverse lookup is classified by the
    answer for [ip_address]: a failed lookup gives NotFound with no existing
    value; a name equal to [full_name] gives MatchesExpected; a name that
    begins with [hostname] and a dash, with [PREFER_INTERFACE_FQDN_PTR] on,
    gives MatchesPreferredAlternate and no update is asked for; any other
    name gives ExistsButDiffers; the returned name is kept as the existing
    value. *)
Theorem reverse_lookup_classification
    (s : settings) (dns : resolver) (a h d : value)
    (w : list log_record) (r : Address_FQDN) :
  Address_FQDN_init s dns a h d = (w, inr r) ->
  (forall error,
      gethostbyaddr dns (ip_address r) = LookupError error ->
      reverse_lookup r = NotFound /\
      reverse_lookup_exists r = false /\
      reverse_lookup_existing_value r = None) /\
  (forall hostname_info,
      gethostbyaddr dns (ip_address r) = Resolved hostname_info ->
      reverse_lookup_exists r = true /\
      reverse_lookup_existing_value r = Some hostname_info /\
      (hostname_info = full_name r ->
       reverse_lookup r = MatchesExpected /\
       reverse_lookup_needs_update r = false) /\
      (Py.startswith (hostname r +:+ "-") hostname_info = true ->
       PREFER_INTERFACE_FQDN_PTR s = true ->
       reverse_lookup r = MatchesPreferredAlternate /\
       reverse_lookup_needs_update r = false) /\
      (hostname_info <> full_name r ->
       Py.startswith (hostname r +:+ "-") hostname_info = false \/
       PREFER_INTERFACE_FQDN_PTR s = false ->
       reverse_lookup r = ExistsButDiffers /\
       reverse_lookup_needs_update r = true)).
Proof.
  intros H.
  assert (H' : snd (Address_FQDN_init s dns a h d) = inr r) by (rewrite H; reflexivity).
  destruct (Address_FQDN_init_returns _ _ _ _ _ _ H')
    as (ip & hn & dm & fwd & rvs & _ & _ & _ & _ & Hr & ->).
  cbn [full_name ip_address hostname].
  destruct (init_reverse_lookup_returns s dns (hn +:+ "." +:+ dm) hn
              (Py.strip (ipaddress.compressed ip))) as (t & Ht & Hcase).
  rewrite Hr in Ht. injection Ht as <-.
  split.
  - intros error Herr. rewrite Herr in Hcase. subst rvs. repeat split.
  - intros info Hres. rewrite Hres in Hcase. subst rvs.
    unfold reverse_lookup.
    cbn [reverse_lookup_exists reverse_lookup_needs_update
         reverse_lookup_existing_value full_name fst snd negb].
    split; [reflexivity|]. split; [reflexivity|]. split; [|split].
    + intros ->. rewrite String.eqb_refl. split; reflexivity.
    + intros Hsw Hpref.
      assert (Hne : String.eqb info (hn +:+ "." +:+ dm) = false).
      { apply String.eqb_neq. intros ->.
        rewrite startswith_dash_not_dot in Hsw. discriminate. }
      rewrite Hne, Hsw, Hpref. split; reflexivity.
    + intros Hne Hnot. apply String.eqb_neq in Hne. rewrite Hne.
      destruct Hnot as [-> | ->]; [|rewrite andb_false_r]; split; reflexivity.
Qed.

Lemma forward_lookup_classification_witness :
  Address_FQDN_init shipped interface_ptr_dns
    (VStr "10.0.0.1") (VStr "sw1") VNone
  = ([], inr record_sw1_interface_ptr) /\
  forward_lookup record_sw1_interface_ptr = MatchesExpected /\
  forward_lookup_existing_value record_sw1_interface_ptr = Some "10.0.0.1".
Proof.
  assert (H : Address_FQDN_init shipped interface_ptr_dns
                (VStr "10.0.0.1") (VStr "sw1") VNone
              = ([], inr record_sw1_interface_ptr))
    by (vm_compute; reflexivity).
  split; [exact H|].
  destruct (forward_lookup_classification _ _ _ _ _ _ _ H) as (_ & Hres & _).
  destruct (Hres "10.0.0.1" eq_refl) as (_ & Hval & Hmatch & _).
  split; [apply Hmatch; reflexivity | exact Hval].
Defined.

Lemma reverse_lookup_classification_witness :
  Address_FQDN_init shipped interface_ptr_dns
    (VStr "10.0.0.1") (VStr "sw1") VNone
  = ([], inr record_sw1_interface_ptr) /\
  reverse_lookup record_sw1_interface_ptr = MatchesPreferredAlternate /\
  reverse_lookup_needs_update record_sw1_interface_ptr = false.
Proof.
  assert (H : Address_FQDN_init shipped interface_ptr_dns
                (VStr "10.0.0.1") (VStr "sw1") VNone
              = ([], inr record_sw1_interface_ptr))
    by (vm_compute; reflexivity).
  split; [exact H|].
  destruct (reverse_lookup_classification _ _ _ _ _ _ _ H) as (_ & Hres).
  destruct (Hres "sw1-gi-0-1.gatesint.com" eq_refl) as (_ & _ & _ & Hpref & _).
  apply Hpref; reflexivity.
Defined.

(** C2: a hostname made of one space passes the length test of the
    constructor, which reads the argument before it is stripped: the record
    is built, its [hostname] is empty and its [full_name] begins with the
    dot. *)
Theorem blank_hostname_builds_record (dns : resolver) :
  exists r,
    snd (Address_FQDN_init shipped dns (VStr "10.0.0.1") (VStr " ") VNone)
    = inr r /\
    hostname r = EmptyString /\
    full_name r = ".gatesint.com".
Proof.
  assert (H0 : exists r0,
             snd (Address_FQDN_init shipped no_dns
                    (VStr "10.0.0.1") (VStr " ") VNone) = inr r0 /\
             hostname r0 = EmptyString /\ full_name r0 = ".gatesint.com").
  { eexists. split; [vm_compute; reflexivity|]. split; reflexivity. }
  destruct H0 as (r0 & H0 & Hh & Hf).
  destruct (Address_FQDN_init_resolver_independent _ _ dns _ _ _ _ H0)
    as (r & Hr & _ & Hh' & _ & Hf' & _).
  exists r. rewrite Hh', Hf'. auto.
Qed.

(** The zero-length hostname is refused once the address has parsed. *)
Lemma empty_hostname_refused
    (s : settings) (dns : resolver) (a d : value) (ip : ipaddress.IPv4Address) :
  snd (init_ipv4_address a (VStr EmptyString)) = inr ip ->
  snd (Address_FQDN_init s dns a (VStr EmptyString) d) = inl InvalidHostname.
Proof.
  intros Hip. unfold Address_FQDN_init.
  rewrite snd_bind, Hip, snd_bind. reflexivity.
Qed.

(** A returned record was given a string of at least one character as its
    hostname, and holds it stripped and lowercased. *)
Lemma returned_record_hostname
    (s : settings) (dns : resolver) (a h d : value) (r : Address_FQDN) :
  snd (Address_FQDN_init s dns a h d) = inr r ->
  exists raw, h = VStr raw /\ raw <> EmptyString /\
              hostname r = Py.lower (Py.strip raw).
Proof.
  intros H.
  destruct (Address_FQDN_init_returns _ _ _ _ _ _ H)
    as (ip & hn & dm & fwd & rvs & _ & Hhn & _ & _ & _ & ->).
  cbn [hostname]. unfold init_hostname in Hhn.
  destruct h as [|raw|?|?]; try discriminate.
  destruct raw as [|c raw]; [discriminate|].
  cbn in Hhn. injection Hhn as <-.
  exists (String c raw). repeat split. discriminate.
Qed.

Lemma strip_blank (x : string) :
  all_chars Py.is_space x = true -> Py.strip x = EmptyString.
Proof.
  intros H. unfold Py.strip.
  assert (Hr : Py.rstrip x = EmptyString).
  { induction x as [|c x IH]; [reflexivity|].
    cbn [all_chars] in H. apply andb_true_iff in H as [Hc Hx].
    cbn [Py.rstrip]. rewrite (IH Hx), Hc. reflexivity. }
  rewrite Hr. reflexivity.
Qed.

(** Every hostname made of white space only gives a record whose
    [hostname] is empty. *)
Lemma blank_hostname_record
    (s : settings) (dns : resolver) (a d : value) (h : string)
    (r : Address_FQDN) :
  snd (Address_FQDN_init s dns a (VStr h) d) = inr r ->
  all_chars Py.is_space h = true ->
  hostname r = EmptyString.
Proof.
  intros H Hblank.
  destruct (returned_record_hostname _ _ _ _ _ _ H) as (raw & [= <-] & _ & ->).
  rewrite (strip_blank h Hblank). reflexivity.
Qed.

(** C7: a domain made of one space is neither absent nor of length zero, so
    it is not replaced by the default; stripped, it leaves the record with an
    empty [domain] and a [full_name] that ends with the dot. *)
Theorem blank_domain_builds_record (dns : resolver) :
  exists r,
    snd (Address_FQDN_init shipped dns (VStr "10.0.0.1") (VStr "sw1") (VStr " "))
    = inr r /\
    domain r = EmptyString /\
    full_name r = "sw1.".
Proof.
  assert (H0 : exists r0,
             snd (Address_FQDN_init shipped no_dns
                    (VStr "10.0.0.1") (VStr "sw1") (VStr " ")) = inr r0 /\
             domain r0 = EmptyString /\ full_name r0 = "sw1.").
  { eexists. split; [vm_compute; reflexivity|]. split; reflexivity. }
  destruct H0 as (r0 & H0 & Hd & Hf).
  destruct (Address_FQDN_init_resolver_independent _ _ dns _ _ _ _ H0)
    as (r & Hr & _ & _ & Hd' & Hf' & _).
  exists r. rewrite Hd', Hf'. auto.
Qed.

(** The domain of a returned record: the default when the argument is absent
    or of length zero (the latter with one INFO record and no exception),
    the argument otherwise; stripped and lowercased in each case. *)
Lemma returned_record_domain
    (s : settings) (dns : resolver) (a h d : value) (r : Address_FQDN) :
  snd (Address_FQDN_init s dns a h d) = inr r ->
  match d with
  | VNone =>
      domain r = Py.lower (Py.strip (DEFAULT_DOMAIN s)) /\
      fst (init_domain s h d) = []
  | VStr EmptyString =>
      domain r = Py.lower (Py.strip (DEFAULT_DOMAIN s)) /\
      exists note, fst (init_domain s h d) = [(INFO, note)]
  | VStr supplied =>
      domain r = Py.lower (Py.strip supplied) /\
      fst (init_domain s h d) = []
  | _ => False
  end.
Proof.
  intros H.
  destruct (Address_FQDN_init_returns _ _ _ _ _ _ H)
    as (ip & hn & dm & fwd & rvs & _ & _ & Hdm & _ & _ & ->).
  cbn [domain].
  destruct d as [|supplied|?|?]; try discriminate.
  - cbn in Hdm. injection Hdm as <-. split; reflexivity.
  - destruct supplied as [|c supplied].
    + cbn in Hdm. injection Hdm as <-. split; [reflexivity|].
      eexists. reflexivity.
    + cbn in Hdm. injection Hdm as <-. split; reflexivity.
Qed.

Lemma lstrip_nonempty (x : string) :
  all_chars Py.is_space x = false -> Py.lstrip x <> EmptyString.
Proof.
  induction x as [|c x IH]; simpl; [discriminate|].
  destruct (Py.is_space c); simpl; [exact IH|discriminate].
Qed.

Lemma rstrip_keeps_non_space (x : string) :
  all_chars Py.is_space x = false -> all_chars Py.is_space (Py.rstrip x) = false.
Proof.
  induction x as [|c x IH]; simpl; [discriminate|].
  destruct (Py.is_space c) eqn:Hc; simpl.
  - intros Hx. specialize (IH Hx).
    destruct (Py.rstrip x) as [|c' x'] eqn:Hr; [discriminate|].
    cbn [all_chars]. rewrite Hc. exact IH.
  - intros _. destruct (Py.rstrip x); cbn [all_chars]; rewrite Hc; reflexivity.
Qed.

Lemma lower_nonempty (x : string) : x <> EmptyString -> Py.lower x <> EmptyString.
Proof. destruct x; [congruence|discriminate]. Qed.

Lemma strip_lower_nonempty (x : string) :
  all_chars Py.is_space x = false -> Py.lower (Py.strip x) <> EmptyString.
Proof.
  intros H. apply lower_nonempty. unfold Py.strip.
  apply lstrip_nonempty, rstrip_keeps_non_space, H.
Qed.

(** Every supplied domain of at least one character, all of them white
    space, gives a record whose [domain] is empty. *)
Lemma blank_domain_record
    (s : settings) (dns : resolver) (a h : value) (supplied : string)
    (r : Address_FQDN) :
  snd (Address_FQDN_init s dns a h (VStr supplied)) = inr r ->
  supplied <> EmptyString ->
  all_chars Py.is_space supplied = true ->
  domain r = EmptyString.
Proof.
  intros H Hne Hblank.
  pose proof (returned_record_domain _ _ _ _ _ _ H) as Hd. cbn in Hd.
  destruct supplied as [|c supplied]; [congruence|].
  destruct Hd as [-> _]. rewrite (strip_blank _ Hblank). reflexivity.
Qed.

(** The other supplied domains, those with a character that is not white
    space, leave a non-empty [domain]. *)
Lemma supplied_domain_nonempty
    (s : settings) (dns : resolver) (a h : value) (supplied : string)
    (r : Address_FQDN) :
  snd (Address_FQDN_init s dns a h (VStr supplied)) = inr r ->
  all_chars Py.is_space supplied = false ->
  domain r <> EmptyString.
Proof.
  intros H Hsome.
  pose proof (returned_record_domain _ _ _ _ _ _ H) as Hd. cbn in Hd.
  destruct supplied as [|c supplied]; [discriminate Hsome|].
  destruct Hd as [-> _]. apply strip_lower_nonempty, Hsome.
Qed.

(** ** The device normaliser on long runs *)

Lemma collapse_pair (h : string) :
  Py.replace "--" "-" (String "-" (String "-" h))
  = String "-" (Py.replace "--" "-" h).
Proof. reflexivity. Qed.

Lemma collapse_other (c : ascii) (h : string) :
  Py.startswith "--" (String c h) = false ->
  Py.replace "--" "-" (String c h) = String c (Py.replace "--" "-" h).
Proof.
  intros H. unfold Py.replace. cbn [Py.replace_from]. rewrite H. reflexivity.
Qed.

Lemma startswith_dash (h : string) :
  Py.startswith "-" h = begins_with (fun c => Ascii.eqb c "-") h.
Proof.
  destruct h as [|c h]; [reflexivity|].
  cbn [Py.startswith begins_with]. rewrite andb_true_r. apply ascii_eqb_sym.
Qed.

Lemma startswith_double_dash (c : ascii) (h : string) :
  Py.startswith "--" (String c h)
  = Ascii.eqb c "-" && begins_with (fun c => Ascii.eqb c "-") h.
Proof.
  cbn [Py.startswith]. rewrite (ascii_eqb_sym "-" c).
  f_equal. destruct h as [|d h]; [reflexivity|].
  cbn [begins_with]. rewrite andb_true_r. apply ascii_eqb_sym.
Qed.






Lemma clean_device_hostname_steps (h : string) :
  _clean_device_hostname h
  = Py.replace "--" "-"
      (Py.replace "--" "-" (Py.replace "_" "-" (first_label (Py.lower h)))).
Proof. reflexivity. Qed.

Lemma lower_app (a b : string) :
  Py.lower (a +:+ b) = Py.lower a +:+ Py.lower b.
Proof.
  induction a as [|c a IH]; [reflexivity|].
  change (String c a +:+ b) with (String c (a +:+ b)).
  cbn [Py.lower]. rewrite IH. reflexivity.
Qed.



Lemma first_label_app (a b : string) :
  all_chars (fun c => negb (Ascii.eqb c ".")) a = true ->
  first_label (a +:+ b) = a +:+ first_label b.
Proof.
  induction a as [|c a IH]; [reflexivity|].
  cbn [all_chars]. intros [Hc Ha]%andb_true_iff.
  apply negb_true_iff in Hc. specialize (IH Ha).
  change (String c a +:+ b) with (String c (a +:+ b)).
  change (String c a +:+ first_label b) with (String c (a +:+ first_label b)).
  rewrite <- IH. unfold first_label.
  cbn [Py.contains_char Py.split]. rewrite Hc.
  destruct (Py.contains_char "." (a +:+ b)); [|reflexivity].
  destruct (Py.split "." (a +:+ b)); reflexivity.
Qed.

Lemma first_label_begins (h : string) :
  begins_with (fun c => Ascii.eqb c "-") (first_label h)
  = begins_with (fun c => Ascii.eqb c "-") h.
Proof.
  destruct h as [|c h]; [reflexivity|].
  unfold first_label. cbn [Py.contains_char Py.split begins_with].
  destruct (Ascii.eqb c ".") eqn:Hc.
  - apply Ascii.eqb_eq in Hc. subst c. reflexivity.
  - destruct (Py.contains_char "." h); [|reflexivity].
    destruct (Py.split "." h); reflexivity.
Qed.







(** Runs of one to four characters come out as one dash. *)
Lemma half_up_twice_up_to_four (n : nat) :
  (1 <= n <= 4)%nat -> dashes (half_up (half_up n)) = "-".
Proof.
  intros Hn.
  assert (H : n = 1%nat \/ n = 2%nat \/ n = 3%nat \/ n = 4%nat) by lia.
  destruct H as [->|[->|[->| ->]]]; reflexivity.
Qed.

(** C3: a run of five dashes, or of five underscores, leaves the two
    collapse passes of [_clean_device_hostname] as two dashes (five, then
    three, then two), while runs of one to four become a single dash. *)
Theorem clean_device_hostname_run_of_five :
  _clean_device_hostname "sw-----1" = "sw--1" /\
  _clean_device_hostname "sw_____1" = "sw--1" /\
  _clean_device_hostname "sw-1" = "sw-1" /\
  _clean_device_hostname "sw__1" = "sw-1" /\
  _clean_device_hostname "sw-_-1" = "sw-1" /\
  _clean_device_hostname "sw____1" = "sw-1".
Proof. repeat split; vm_compute; reflexivity. Qed.

(** ** The batch coordinator *)

Lemma for_each_snoc_returns {A B} (f : A -> M B) (Q : B -> Prop)
    (xs : list A) (acc : list B) :
  Forall (fun x => exists y, snd (f x) = inr y /\ Q y) xs ->
  exists ys,
    snd (for_each (fun acc x => let* y := f x in ret (acc ++ [y])) xs acc)
    = inr (acc ++ ys) /\
    Forall Q ys /\ length ys = length xs.
Proof.
  intros H. revert acc.
  induction H as [|x xs (y & Hy & HQ) _ IH]; intros acc.
  - exists []. rewrite app_nil_r. repeat split. constructor.
  - cbn [for_each]. rewrite snd_bind, snd_bind, Hy. cbn [ret snd].
    destruct (IH (acc ++ [y])) as (ys & Hys & HQs & Hlen).
    exists (y :: ys). rewrite Hys, <- app_assoc. cbn [app length].
    repeat split; [constructor; assumption | congruence].
Qed.

Lemma has_required_keys_insert (address : gmap string string) (h : string) :
  has_required_keys address ->
  has_required_keys (<["device_hostname" := h]> address).
Proof.
  intros [Hip _]. split.
  - rewrite lookup_insert_ne by discriminate. exact Hip.
  - rewrite lookup_insert_eq. eexists. reflexivity.
Qed.

(** The first loop keeps every row with both mandatory columns, whether or
    not its interface name is understood; only [device_hostname] changes. *)
Lemma clean_row_returns (s : settings) (address : gmap string string) :
  has_required_keys address ->
  exists h,
    snd (clean_row s address) = inr (<["device_hostname" := h]> address).
Proof.
  intros [[ip Hip] [dh Hdh]].
  unfold clean_row. rewrite snd_bind.
  unfold lift at 1, getitem at 1. rewrite Hdh. cbn [snd].
  set (h0 := _clean_device_hostname dh).
  match goal with
  | |- context [ ?m !! "interface_name" ] => set (address1 := m)
  end.
  assert (Hget : getitem address1 "device_hostname" = inr h0).
  { unfold getitem, address1. rewrite lookup_insert_eq. reflexivity. }
  assert (Hgetip : getitem address1 "ip_address" = inr ip).
  { unfold getitem, address1. rewrite lookup_insert_ne by discriminate.
    rewrite Hip. reflexivity. }
  destruct (address1 !! "interface_name")
    as [interface_name|]; [|exists h0; reflexivity].
  destruct (0 <? String.length interface_name)%nat; [|exists h0; reflexivity].
  rewrite snd_try_except, snd_bind. unfold lift at 1. cbn [snd].
  rewrite Hget, snd_bind. unfold lift at 1. cbn [snd].
  destruct (_clean_interface_hostname s h0 interface_name) as [e|cleaned].
  - rewrite snd_bind. unfold lift at 1. cbn [snd].
    rewrite snd_bind. unfold lift at 1. cbn [snd]. rewrite Hgetip.
    rewrite snd_bind. cbn [log snd ret]. exists h0. reflexivity.
  - cbn [ret snd]. exists cleaned. unfold address1.
    rewrite insert_insert_eq. reflexivity.
Qed.

Lemma to_address_data_returns (address : gmap string string) :
  has_required_keys address ->
  exists kw, to_address_data address = inr kw.
Proof.
  intros [[ip Hip] [dh Hdh]]. unfold to_address_data, getitem.
  rewrite Hip, Hdh. eexists. reflexivity.
Qed.

(** With both mandatory columns in every row the two preparation loops
    return, with one set of keyword arguments per row. *)
Lemma prepare_returns (s : settings) (address_table : list (gmap string string)) :
  Forall has_required_keys address_table ->
  exists table,
    snd (prepare s address_table) = inr table /\
    length table = length address_table.
Proof.
  intros Hkeys. unfold prepare. rewrite snd_bind.
  destruct (for_each_snoc_returns (clean_row s) has_required_keys
              address_table []) as (cleaned & Hc & Hck & Hclen).
  { eapply Forall_impl; [exact Hkeys|]. intros address Ha.
    destruct (clean_row_returns s address Ha) as (h & Hh).
    eexists. split; [exact Hh|]. apply has_required_keys_insert, Ha. }
  rewrite Hc. cbn [app].
  destruct (for_each_snoc_returns (fun address => lift (to_address_data address))
              (fun _ => True) cleaned []) as (table & Ht & _ & Htlen).
  { eapply Forall_impl; [exact Hck|]. intros address Ha.
    destruct (to_address_data_returns address Ha) as (kw & Hkw).
    exists kw. unfold lift. cbn [snd]. auto. }
  rewrite Ht. exists table. split; [reflexivity|]. congruence.
Qed.

Lemma built_cons
    (s : settings) (dns : resolver)
    (address : address_data) (table : list address_data) :
  built s dns (address :: table)
  = match snd (construct s dns address) with
    | inr obj => obj :: built s dns table
    | inl _ => built s dns table
    end.
Proof.
  unfold built. cbn [omap list_omap].
  destruct (snd (construct s dns address)); reflexivity.
Qed.

Lemma built_length
    (s : settings) (dns : resolver) (table : list address_data) :
  (length (built s dns table) <= length table)%nat.
Proof.
  induction table as [|address table IH]; [reflexivity|].
  rewrite built_cons.
  destruct (snd (construct s dns address)); cbn [length]; lia.
Qed.

(** The sequential loop appends exactly the records whose construction
    returns, in table order; an exception of the constructor is logged and
    the loop goes on. *)
Lemma build_sequential_returns
    (s : settings) (dns : resolver)
    (table : list address_data) (acc : list Address_FQDN) :
  snd (for_each (build_one s dns) table acc) = inr (acc ++ built s dns table).
Proof.
  revert acc. induction table as [|address table IH]; intros acc.
  - cbn. rewrite app_nil_r. reflexivity.
  - cbn [for_each]. rewrite snd_bind.
    unfold build_one at 1. rewrite snd_try_except, snd_bind.
    rewrite built_cons.
    destruct (snd (construct s dns address)) as [e|obj].
    + rewrite snd_bind. cbn [log snd ret]. apply IH.
    + cbn [ret snd]. rewrite IH, <- app_assoc. reflexivity.
Qed.

Lemma main_sequential_returns
    (s : settings) (dns : resolver)
    (address_table : list (gmap string string)) (table : list address_data) :
  address_table <> [] ->
  snd (prepare s address_table) = inr table ->
  snd (main_sequential s dns address_table)
  = inr {| status := true; data := Some (built s dns table) |}.
Proof.
  intros Hne Hprep. unfold main_sequential.
  destruct address_table as [|row rows]; [congruence|].
  cbn [length Nat.eqb]. rewrite snd_bind, Hprep, snd_bind.
  rewrite build_sequential_returns. reflexivity.
Qed.

(** C9: on a batch whose rows carry the two mandatory columns, [main]
    returns; its status is false, with no data, exactly when the batch has no
    row; a batch with at least one row gets status true and a list of
    records, however many of its rows fail. *)
Theorem main_status
    (s : settings) (dns : resolver)
    (address_table : list (gmap string string)) :
  Forall has_required_keys address_table ->
  (exists out, main_returns s dns address_table out) /\
  (forall out,
      main_returns s dns address_table out ->
      exists r,
        out = inr r /\
        (status r = false <-> address_table = []) /\
        (address_table = [] -> data r = None) /\
        (address_table <> [] ->
         status r = true /\ exists address_objects,
           data r = Some address_objects /\
           (length address_objects <= length address_table)%nat)).
Proof.
  intros Hkeys.
  destruct (prepare_returns s address_table Hkeys) as (table & Hprep & Hlen).
  assert (Hbuilt : forall objs,
             Permutation (built s dns table) objs ->
             (length objs <= length address_table)%nat).
  { intros objs Hperm. rewrite <- (Permutation_length Hperm), <- Hlen.
    apply built_length. }
  assert (Hseq : address_table <> [] ->
                 snd (main_sequential s dns address_table)
                 = inr {| status := true; data := Some (built s dns table) |})
    by (intros Hne; apply main_sequential_returns; assumption).
  split.
  - destruct (MULTITHREAD s) eqn:Hmt.
    + destruct address_table as [|row rows] eqn:Htbl.
      * eexists. apply main_no_data; [exact Hmt|reflexivity].
      * eexists. eapply main_pool;
          [exact Hmt | discriminate | exact Hprep | reflexivity].
    + eexists. apply main_one_thread. exact Hmt.
  - intros out Hout.
    destruct Hout as [Hmt | Hmt -> | e Hmt Hne He | table' objs Hmt Hne Ht Hperm].
    + destruct address_table as [|row rows] eqn:Htbl.
      * eexists. split; [reflexivity|]. cbn.
        repeat split; congruence.
      * rewrite Hseq by discriminate.
        eexists. split; [reflexivity|]. cbn [status data].
        split; [split; discriminate|]. split; [discriminate|].
        intros _. split; [reflexivity|]. eexists. split; [reflexivity|].
        apply Hbuilt. reflexivity.
    + eexists. split; [reflexivity|]. cbn. repeat split; congruence.
    + congruence.
    + rewrite Hprep in Ht. injection Ht as <-.
      eexists. split; [reflexivity|]. cbn [status data].
      split; [split; [discriminate|congruence]|]. split; [congruence|].
      intros _. split; [reflexivity|]. eexists. split; [reflexivity|].
      apply Hbuilt, Hperm.
Qed.

Lemma main_status_witness :
  Forall has_required_keys [row_bad_address; row_plain] /\
  exists r,
    snd (main_sequential (one_thread shipped) no_dns
           [row_bad_address; row_plain]) = inr r /\
    status r = true.
Proof.
  assert (Hkeys : Forall has_required_keys [row_bad_address; row_plain]).
  { repeat constructor; eexists; vm_compute; reflexivity. }
  split; [exact Hkeys|].
  destruct (main_status (one_thread shipped) no_dns
              [row_bad_address; row_plain] Hkeys) as [_ Hall].
  destruct (Hall _ (main_one_thread (one_thread shipped) no_dns _ eq_refl))
    as (r & Hr & _ & _ & Hne).
  exists r. split; [exact Hr|]. apply Hne. discriminate.
Defined.

(** C9, counterexample to the claim without the condition on the columns: a
    batch of two rows, the second without any column (as a blank line of the
    file gives), is not empty, yet [main] leaves with the [KeyError] of
    [device_hostname] in both modes and no status is returned. *)
Lemma main_status_counterexample :
  [row_plain; (∅ : gmap string string)] <> [] /\
  main_returns shipped no_dns [row_plain; ∅]
    (inl (KeyError "device_hostname")) /\
  main_returns (one_thread shipped) no_dns [row_plain; ∅]
    (inl (KeyError "device_hostname")) /\
  ~ (exists r, main_returns shipped no_dns [row_plain; ∅] (inr r)) /\
  ~ (exists r, main_returns (one_thread shipped) no_dns [row_plain; ∅] (inr r)).
Proof.
  assert (Hprep : snd (prepare shipped [row_plain; ∅])
                  = inl (KeyError "device_hostname"))
    by (vm_compute; reflexivity).
  assert (Hseq : snd (main_sequential (one_thread shipped) no_dns
                        [row_plain; ∅])
                 = inl (KeyError "device_hostname"))
    by (vm_compute; reflexivity).
  split; [discriminate|]. split; [|split; [|split]].
  - apply main_key_error; [reflexivity | discriminate | exact Hprep].
  - rewrite <- Hseq. apply main_one_thread. reflexivity.
  - intros (r & H). remember (inr r) as out eqn:Hout.
    destruct H as [Hmt | Hmt Hnil | e Hmt Hne He | table objs Hmt Hne Ht Hperm].
    + discriminate Hmt.
    + discriminate Hnil.
    + discriminate Hout.
    + rewrite Hprep in Ht. discriminate Ht.
  - intros (r & H). remember (inr r) as out eqn:Hout.
    destruct H as [Hmt | Hmt Hnil | e Hmt Hne He | table objs Hmt Hne Ht Hperm].
    + rewrite Hseq in Hout. discriminate Hout.
    + discriminate Hnil.
    + discriminate Hout.
    + discriminate Hmt.
Qed.

(** When the interface normaliser raises on a row, the first loop logs the
    exception and keeps the row, with the cleaned device hostname. *)
Lemma clean_row_interface_exception
    (s : settings) (address : gmap string string)
    (ip dh interface_name : string) (e : exn) :
  address !! "ip_address" = Some ip ->
  address !! "device_hostname" = Some dh ->
  address !! "interface_name" = Some interface_name ->
  interface_name <> EmptyString ->
  _clean_interface_hostname s (_clean_device_hostname dh) interface_name
  = inl e ->
  snd (clean_row s address)
  = inr (<["device_hostname" := _clean_device_hostname dh]> address).
Proof.
  intros Hip Hdh Hif Hne He.
  unfold clean_row. rewrite snd_bind.
  unfold lift at 1, getitem at 1. rewrite Hdh. cbn [snd].
  set (h0 := _clean_device_hostname dh) in *.
  match goal with
  | |- context [ ?m !! "interface_name" ] => set (address1 := m)
  end.
  assert (Hget : getitem address1 "device_hostname" = inr h0).
  { unfold getitem, address1. rewrite lookup_insert_eq. reflexivity. }
  assert (Hgetip : getitem address1 "ip_address" = inr ip).
  { unfold getitem, address1. rewrite lookup_insert_ne by discriminate.
    rewrite Hip. reflexivity. }
  assert (Hif1 : address1 !! "interface_name" = Some interface_name).
  { unfold address1. rewrite lookup_insert_ne by discriminate. exact Hif. }
  rewrite Hif1.
  destruct interface_name as [|c rest]; [congruence|].
  cbn [String.length Nat.ltb Nat.leb].
  rewrite snd_try_except, snd_bind. unfold lift at 1. cbn [snd].
  rewrite Hget, snd_bind. unfold lift at 1. cbn [snd].
  rewrite He.
  rewrite snd_bind. unfold lift at 1. cbn [snd].
  rewrite snd_bind. unfold lift at 1. cbn [snd]. rewrite Hgetip.
  rewrite snd_bind. reflexivity.
Qed.

(** C1: the interface [Wireless0] is not in the shipped table and
    [_clean_interface_hostname] raises on it, but [main] only logs that
    exception: the row goes on to the constructor with the hostname of the
    device, and its record is in the returned list, whatever the resolver
    answers. *)
Theorem unknown_interface_row_is_built (dns : resolver) :
  INTERFACE_MAP shipped !! "wireless" = None /\
  _clean_interface_hostname shipped "sw1" "Wireless0"
  = inl (UnknownInterfaceType "wireless") /\
  snd (prepare shipped [row_wireless])
  = inr [ {| kw_ipv4_address := VStr "10.0.0.1";
             kw_hostname := VStr "sw1";
             kw_domain := VNone |} ] /\
  exists r,
    main_returns shipped dns [row_wireless]
      (inr {| status := true; data := Some [r] |}) /\
    snd (main_sequential shipped dns [row_wireless])
    = inr {| status := true; data := Some [r] |} /\
    ip_address r = "10.0.0.1" /\
    hostname r = "sw1" /\
    full_name r = "sw1.gatesint.com".
Proof.
  set (kw := {| kw_ipv4_address := VStr "10.0.0.1";
                kw_hostname := VStr "sw1";
                kw_domain := VNone |}).
  assert (Hprep : snd (prepare shipped [row_wireless]) = inr [kw])
    by (vm_compute; reflexivity).
  split; [vm_compute; reflexivity|].
  split; [vm_compute; reflexivity|].
  split; [exact Hprep|].
  assert (H0 : snd (Address_FQDN_init shipped no_dns
                      (VStr "10.0.0.1") (VStr "sw1") VNone)
               = inr record_sw1_no_dns)
    by (vm_compute; reflexivity).
  destruct (Address_FQDN_init_resolver_independent _ _ dns _ _ _ _ H0)
    as (r & Hr & Hip & Hh & _ & Hf & _).
  assert (Hb : built shipped dns [kw] = [r]).
  { rewrite built_cons. unfold construct. cbn [kw kw_ipv4_address kw_hostname
      kw_domain]. rewrite Hr. reflexivity. }
  exists r. split; [|split].
  - eapply main_pool; [reflexivity | discriminate | exact Hprep |].
    rewrite Hb. reflexivity.
  - rewrite (main_sequential_returns shipped dns [row_wireless] [kw]);
      [rewrite Hb; reflexivity | discriminate | exact Hprep].
  - rewrite Hip, Hh, Hf. repeat split.
Qed.

(** No other outcome is possible for that batch. *)
Lemma unknown_interface_row_only_outcome (out : result main_return) :
  main_returns shipped no_dns [row_wireless] out ->
  out = inr {| status := true; data := Some [record_sw1_no_dns] |}.
Proof.
  intros H.
  destruct H as [Hmt | _ Hnil | e _ _ He | table objs _ _ Ht Hperm].
  - discriminate Hmt.
  - discriminate Hnil.
  - vm_compute in He. discriminate He.
  - vm_compute in Ht. injection Ht as <-.
    assert (Hb : built shipped no_dns
                   [ {| kw_ipv4_address := VStr "10.0.0.1";
                        kw_hostname := VStr "sw1";
                        kw_domain := VNone |} ] = [record_sw1_no_dns])
      by (vm_compute; reflexivity).
    rewrite Hb in Hperm. apply Permutation_singleton_l in Hperm.
    subst objs. reflexivity.
Qed.

(** ** Exceptions that leave [main] *)

Lemma for_each_snoc_raises {A B} (f : A -> M B)
    (xs : list A) (acc : list B) (e : exn) :
  snd (for_each (fun acc x => let* y := f x in ret (acc ++ [y])) xs acc)
  = inl e ->
  exists x, In x xs /\ snd (f x) = inl e.
Proof.
  revert acc. induction xs as [|x xs IH]; intros acc; [discriminate|].
  cbn [for_each]. rewrite snd_bind, snd_bind.
  destruct (snd (f x)) as [e'|y] eqn:Hx.
  - intros [= <-]. exists x. split; [left; reflexivity | exact Hx].
  - cbn [ret snd]. intros H. destruct (IH _ H) as (x' & Hin & Hx').
    exists x'. split; [right; exact Hin | exact Hx'].
Qed.

Lemma clean_row_raises (s : settings) (address : gmap string string) (e : exn) :
  snd (clean_row s address) = inl e ->
  (e = KeyError "device_hostname" /\ address !! "device_hostname" = None) \/
  (e = KeyError "ip_address" /\ address !! "ip_address" = None).
Proof.
  destruct (address !! "ip_address") as [ip|] eqn:Hip;
    destruct (address !! "device_hostname") as [dh|] eqn:Hdh.
  - intros H.
    destruct (clean_row_returns s address) as (h & Hh).
    { split; eexists; eassumption. }
    congruence.
  - unfold clean_row. rewrite snd_bind. unfold lift at 1, getitem at 1.
    rewrite Hdh. cbn [snd]. intros [= <-]. left. auto.
  - unfold clean_row. rewrite snd_bind. unfold lift at 1, getitem at 1.
    rewrite Hdh. cbn [snd].
    match goal with
    | |- context [ ?m !! "interface_name" ] => set (address1 := m)
    end.
    assert (Hgetip : getitem address1 "ip_address" = inl (KeyError "ip_address")).
    { unfold getitem, address1. rewrite lookup_insert_ne by discriminate.
      rewrite Hip. reflexivity. }
    destruct (address1 !! "interface_name") as [interface_name|];
      [|discriminate].
    destruct (0 <? String.length interface_name)%nat; [|discriminate].
    assert (Hget : getitem address1 "device_hostname"
                   = inr (_clean_device_hostname dh)).
    { unfold getitem, address1. rewrite lookup_insert_eq. reflexivity. }
    rewrite snd_try_except, snd_bind. unfold lift at 1. cbn [snd].
    rewrite Hget, snd_bind. unfold lift at 1. cbn [snd].
    destruct (_clean_interface_hostname s _ interface_name) as [e0|cleaned];
      [|discriminate].
    rewrite snd_bind. unfold lift at 1. cbn [snd].
    rewrite snd_bind. unfold lift at 1. cbn [snd]. rewrite Hgetip.
    intros [= <-]. right. auto.
  - unfold clean_row. rewrite snd_bind. unfold lift at 1, getitem at 1.
    rewrite Hdh. cbn [snd]. intros [= <-]. left. auto.
Qed.

Lemma to_address_data_raises (address : gmap string string) (e : exn) :
  to_address_data address = inl e ->
  e = KeyError "ip_address" \/ e = KeyError "device_hostname".
Proof.
  unfold to_address_data, getitem.
  destruct (address !! "ip_address"); [|intros [= <-]; auto].
  destruct (address !! "device_hostname"); [discriminate|intros [= <-]; auto].
Qed.

(** The only exceptions that leave [main] are the key errors of a row
    without one of the two mandatory columns. *)
Lemma main_raises
    (s : settings) (dns : resolver)
    (address_table : list (gmap string string)) (e : exn) :
  main_returns s dns address_table (inl e) ->
  (e = KeyError "ip_address" \/ e = KeyError "device_hostname") /\
  ~ Forall has_required_keys address_table.
Proof.
  intros H.
  assert (Hprep : snd (prepare s address_table) = inl e).
  { inversion H as [Hmt Hout | | e' Hmt Hne He Hout | ]; subst.
    - unfold main_sequential in Hout.
      destruct (length address_table =? 0)%nat; [discriminate|].
      rewrite snd_bind in Hout.
      destruct (snd (prepare s address_table)) as [e'|table]; [congruence|].
      rewrite snd_bind, build_sequential_returns in Hout. discriminate.
    - assumption. }
  split.
  - unfold prepare in Hprep. rewrite snd_bind in Hprep.
    destruct (snd (for_each _ address_table [])) as [e'|cleaned] eqn:Hc.
    + injection Hprep as ->.
      destruct (for_each_snoc_raises (clean_row s) _ _ _ Hc) as (x & _ & Hx).
      destruct (clean_row_raises s x e Hx) as [[-> _]|[-> _]]; auto.
    + destruct (for_each_snoc_raises
                  (fun address => lift (to_address_data address)) _ _ _ Hprep)
        as (x & _ & Hx).
      apply (to_address_data_raises x e Hx).
  - intros Hkeys.
    destruct (prepare_returns s address_table Hkeys) as (table & Ht & _).
    congruence.
Qed.

(** * Further properties *)

(** ** Characters of the normalised names *)

Lemma all_chars_and (p q : ascii -> bool) (h : string) :
  all_chars (fun c => p c && q c) h = all_chars p h && all_chars q h.
Proof.
  induction h as [|c h IH]; [reflexivity|].
  cbn [all_chars]. rewrite IH.
  destruct (p c), (q c), (all_chars p h), (all_chars q h); reflexivity.
Qed.

Lemma all_chars_app (p : ascii -> bool) (a b : string) :
  all_chars p (a +:+ b) = all_chars p a && all_chars p b.
Proof.
  induction a as [|c a IH]; [reflexivity|].
  change (String c a +:+ b) with (String c (a +:+ b)).
  cbn [all_chars]. rewrite IH. apply andb_assoc.
Qed.

Lemma lower_char_not_upper (c : ascii) : Py.is_upper (Py.lower_char c) = false.
Proof. destruct c as [[] [] [] [] [] [] [] []]; reflexivity. Qed.

Lemma lower_char_idempotent (c : ascii) :
  Py.lower_char (Py.lower_char c) = Py.lower_char c.
Proof. destruct c as [[] [] [] [] [] [] [] []]; reflexivity. Qed.

Lemma lower_no_upper (h : string) :
  all_chars (fun c => negb (Py.is_upper c)) (Py.lower h) = true.
Proof.
  induction h as [|c h IH]; [reflexivity|].
  cbn [Py.lower all_chars]. rewrite lower_char_not_upper, IH. reflexivity.
Qed.

Lemma lower_idempotent (h : string) : Py.lower (Py.lower h) = Py.lower h.
Proof.
  induction h as [|c h IH]; [reflexivity|].
  cbn [Py.lower]. rewrite lower_char_idempotent, IH. reflexivity.
Qed.

(** The first item of a split is a prefix of the text without separator. *)
Lemma split_head_all_chars (p : ascii -> bool) (sep : ascii) (h : string) :
  all_chars p h = true ->
  all_chars p (nth 0 (Py.split sep h) EmptyString) = true.
Proof.
  induction h as [|c h IH]; [reflexivity|].
  cbn [all_chars Py.split]. intros [Hc Hh]%andb_true_iff.
  destruct (Ascii.eqb c sep); [reflexivity|].
  specialize (IH Hh).
  destruct (Py.split sep h) as [|w ws]; cbn [nth all_chars] in *.
  - rewrite Hc. reflexivity.
  - rewrite Hc, IH. reflexivity.
Qed.

Lemma split_head_no_separator (sep : ascii) (h : string) :
  all_chars (fun c => negb (Ascii.eqb c sep))
    (nth 0 (Py.split sep h) EmptyString) = true.
Proof.
  induction h as [|c h IH]; [reflexivity|].
  cbn [Py.split].
  destruct (Ascii.eqb c sep) eqn:Hc; [reflexivity|].
  destruct (Py.split sep h) as [|w ws]; cbn [nth all_chars] in *.
  - rewrite Hc. reflexivity.
  - rewrite Hc, IH. reflexivity.
Qed.

Lemma contains_char_false (x : ascii) (h : string) :
  Py.contains_char x h = false ->
  all_chars (fun c => negb (Ascii.eqb c x)) h = true.
Proof.
  induction h as [|c h IH]; [reflexivity|].
  cbn [Py.contains_char all_chars].
  destruct (Ascii.eqb c x); [discriminate|]. exact IH.
Qed.

Lemma first_label_all_chars (p : ascii -> bool) (h : string) :
  all_chars p h = true -> all_chars p (first_label h) = true.
Proof.
  intros H. unfold first_label.
  destruct (Py.contains_char "." h); [|exact H].
  apply split_head_all_chars, H.
Qed.

Lemma first_label_no_dot (h : string) :
  all_chars (fun c => negb (Ascii.eqb c ".")) (first_label h) = true.
Proof.
  unfold first_label.
  destruct (Py.contains_char "." h) eqn:Hdot.
  - apply split_head_no_separator.
  - apply contains_char_false, Hdot.
Qed.

(** Replacing one character by a dash works character by character. *)
Lemma replace_one_cons (x c : ascii) (h : string) :
  Py.replace (String x EmptyString) "-" (String c h)
  = String (if Ascii.eqb c x then "-"%char else c)
      (Py.replace (String x EmptyString) "-" h).
Proof.
  unfold Py.replace. cbn [Py.replace_from Py.startswith].
  rewrite andb_true_r, (ascii_eqb_sym x c).
  destruct (Ascii.eqb c x); reflexivity.
Qed.

Lemma replace_one_all_chars (p : ascii -> bool) (x : ascii) (h : string) :
  p "-"%char = true ->
  all_chars p h = true ->
  all_chars p (Py.replace (String x EmptyString) "-" h) = true.
Proof.
  intros Hdash. induction h as [|c h IH]; [reflexivity|].
  cbn [all_chars]. intros [Hc Hh]%andb_true_iff.
  rewrite replace_one_cons. cbn [all_chars]. rewrite (IH Hh), andb_true_r.
  destruct (Ascii.eqb c x); assumption.
Qed.

Lemma replace_one_removes (x : ascii) (h : string) :
  Ascii.eqb "-" x = false ->
  all_chars (fun c => negb (Ascii.eqb c x))
    (Py.replace (String x EmptyString) "-" h) = true.
Proof.
  intros Hx. induction h as [|c h IH]; [reflexivity|].
  rewrite replace_one_cons. cbn [all_chars]. rewrite IH, andb_true_r.
  destruct (Ascii.eqb c x) eqn:Hc; [rewrite Hx | rewrite Hc]; reflexivity.
Qed.

(** A collapse pass only drops dashes. *)
Lemma replace_from_double_dash_all_chars
    (p : ascii -> bool) (skip : nat) (h : string) :
  all_chars p h = true ->
  all_chars p (Py.replace_from "--" "-" skip h) = true.
Proof.
  revert skip. induction h as [|c h IH]; intros skip; [reflexivity|].
  cbn [all_chars]. intros [Hc Hh]%andb_true_iff.
  destruct skip as [|k]; cbn [Py.replace_from]; [|apply IH, Hh].
  destruct (Py.startswith "--" (String c h)) eqn:Hsw.
  - rewrite startswith_double_dash in Hsw.
    apply andb_true_iff in Hsw as [->%Ascii.eqb_eq _].
    change ("-" +:+ Py.replace_from "--" "-" (Nat.pred (String.length "--")) h)
      with (String "-" (Py.replace_from "--" "-" 1 h)).
    cbn [all_chars]. rewrite Hc. apply IH, Hh.
  - cbn [all_chars]. rewrite Hc. apply IH, Hh.
Qed.

Lemma collapse_all_chars (p : ascii -> bool) (h : string) :
  all_chars p h = true -> all_chars p (Py.replace "--" "-" h) = true.
Proof. apply replace_from_double_dash_all_chars. Qed.

Lemma clean_device_hostname_all_chars (h : string) :
  all_chars canonical_char (_clean_device_hostname h) = true.
Proof.
  rewrite clean_device_hostname_steps.
  apply collapse_all_chars, collapse_all_chars.
  unfold canonical_char. rewrite !all_chars_and.
  apply andb_true_iff. split; [apply andb_true_iff; split|].
  - apply replace_one_all_chars; [reflexivity|].
    apply first_label_all_chars, lower_no_upper.
  - apply replace_one_all_chars; [reflexivity|]. apply first_label_no_dot.
  - apply replace_one_removes. reflexivity.
Qed.

(** X2: about [_clean_device_hostname]: the result never holds an uppercase
    letter, a dot or an underscore, whatever the input. *)
Theorem clean_device_hostname_alphabet (h : string) :
  all_chars canonical_char (_clean_device_hostname h) = true.
Proof. apply clean_device_hostname_all_chars. Qed.

(** X3: about [_clean_device_hostname] on a hostname of ASCII characters:
    everything from the first dot on is dropped, so a fully qualified name
    and its first label are cleaned to the same hostname.  (Outside ASCII the
    lowering of Python depends on the characters that follow, and the
    statement is not made.) *)
Theorem clean_device_hostname_drops_domain (h rest : string) :
  all_chars is_ascii h = true ->
  all_chars (fun c => negb (Ascii.eqb c ".")) h = true ->
  _clean_device_hostname (h +:+ "." +:+ rest) = _clean_device_hostname h.
Proof.
  intros _ Hdots.
  assert (Hlow : all_chars (fun c => negb (Ascii.eqb c ".")) (Py.lower h) = true).
  { clear -Hdots. induction h as [|c h IH]; [reflexivity|].
    cbn [all_chars] in Hdots. apply andb_true_iff in Hdots as [Hc Hh].
    cbn [Py.lower all_chars]. rewrite (IH Hh), andb_true_r.
    revert Hc. clear. destruct c as [[] [] [] [] [] [] [] []]; intros H;
      first [discriminate H | reflexivity]. }
  rewrite !clean_device_hostname_steps, lower_app.
  rewrite (first_label_app _ _ Hlow).
  assert (Hl : first_label (Py.lower h) = Py.lower h).
  { unfold first_label. rewrite (contains_char_absent "." _ Hlow). reflexivity. }
  rewrite Hl.
  assert (Hr : first_label (Py.lower ("." +:+ rest)) = EmptyString)
    by reflexivity.
  rewrite Hr.
  assert (Hnil : forall x, x +:+ EmptyString = x).
  { intros x. induction x as [|c x IH]; [reflexivity|].
    change (String c x +:+ EmptyString) with (String c (x +:+ EmptyString)).
    rewrite IH. reflexivity. }
  rewrite Hnil. reflexivity.
Qed.

Lemma clean_device_hostname_drops_domain_witness :
  all_chars is_ascii "Core_SW1" = true /\
  all_chars (fun c => negb (Ascii.eqb c ".")) "Core_SW1" = true /\
  _clean_device_hostname ("Core_SW1" +:+ "." +:+ "example.com")
  = _clean_device_hostname "Core_SW1".
Proof.
  split; [reflexivity|]. split; [reflexivity|].
  apply (clean_device_hostname_drops_domain "Core_SW1" "example.com");
    reflexivity.
Defined.

(** ** Outcomes of the interface normaliser *)

Lemma append_empty_r (x : string) : x +:+ EmptyString = x.
Proof.
  induction x as [|c x IH]; [reflexivity|].
  change (String c x +:+ EmptyString) with (String c (x +:+ EmptyString)).
  rewrite IH. reflexivity.
Qed.

Lemma append_assoc (x y z : string) : (x +:+ y) +:+ z = x +:+ y +:+ z.
Proof.
  induction x as [|c x IH]; [reflexivity|].
  change ((String c x +:+ y) +:+ z) with (String c ((x +:+ y) +:+ z)).
  rewrite IH. reflexivity.
Qed.

Lemma append_cancel_l (a x y : string) : a +:+ x = a +:+ y -> x = y.
Proof.
  induction a as [|c a IH]; [auto|].
  change (String c a +:+ x) with (String c (a +:+ x)).
  change (String c a +:+ y) with (String c (a +:+ y)).
  intros [= H]. auto.
Qed.

Lemma startswith_app (w r : string) : Py.startswith w (w +:+ r) = true.
Proof.
  induction w as [|c w IH]; [reflexivity|].
  change (String c w +:+ r) with (String c (w +:+ r)).
  cbn [Py.startswith]. rewrite Ascii.eqb_refl, IH. reflexivity.
Qed.

Lemma span_app (p : ascii -> bool) (h : string) :
  h = fst (Py.span p h) +:+ snd (Py.span p h).
Proof.
  induction h as [|c h IH]; [reflexivity|].
  cbn [Py.span]. destruct (p c); [|reflexivity].
  destruct (Py.span p h) as [w r]. cbn [fst snd] in *.
  change (String c w +:+ r) with (String c (w +:+ r)). rewrite <- IH.
  reflexivity.
Qed.

(** A match of the type pattern is a prefix of the text. *)
Lemma findall_interface_type_prefix (interface ty : string) :
  item0 (findall_interface_type interface) = inr ty ->
  Py.startswith ty interface = true.
Proof.
  unfold findall_interface_type.
  pose proof (span_app Py.is_az interface) as Hsplit.
  destruct (Py.span Py.is_az interface) as [w1 r1]. cbn [fst snd] in Hsplit.
  destruct w1 as [|c w1]; [discriminate|].
  assert (H1 : Py.startswith (String c w1) interface = true)
    by (rewrite Hsplit; apply startswith_app).
  destruct r1 as [|d r2]; [intros [= <-]; exact H1|].
  destruct (Ascii.eqb_spec d "-") as [->|Hd].
  - pose proof (span_app Py.is_az r2) as Hsplit2.
    destruct (Py.span Py.is_az r2) as [w2 r3]. cbn [fst snd] in *.
    destruct w2 as [|e w2]; [intros [= <-]; exact H1|].
    intros [= <-]. rewrite Hsplit, Hsplit2.
    change (String "-" (String e w2 +:+ r3))
      with (("-" +:+ String e w2) +:+ r3).
    rewrite <- (append_assoc (String c w1) ("-" +:+ String e w2) r3).
    apply startswith_app.
  - intros H. assert (Hty : ty = String c w1).
    { destruct d as [[] [] [] [] [] [] [] []];
        first [congruence | cbn in H; congruence]. }
    subst ty. exact H1.
Qed.

Lemma findall_interface_type_nil (interface : string) :
  findall_interface_type interface = [] ->
  starts_with_letter interface = false.
Proof.
  unfold findall_interface_type.
  destruct interface as [|c rest]; [reflexivity|].
  cbn [Py.span starts_with_letter].
  destruct (Py.is_az c); [|reflexivity].
  destruct (Py.span Py.is_az rest) as [w r].
  destruct r as [|d r2]; [discriminate|].
  destruct (Py.span Py.is_az r2) as [w2 r3]. cbn [fst].
  destruct d as [[] [] [] [] [] [] [] []]; try discriminate;
    destruct w2; discriminate.
Qed.

(** X6: about [_clean_interface_hostname]: it raises [IndexError] exactly
    when the normalised text does not begin with a letter of [a-z].  When
    the text does begin with such a letter, a type is extracted that is a
    prefix of the text, and the function raises the unknown-type exception
    naming it exactly when the type is not a key of [INTERFACE_MAP], and
    returns otherwise.  No other exception is raised. *)
Theorem clean_interface_hostname_raises
    (s : settings) (hostname interface : string) :
  (_clean_interface_hostname s hostname interface = inl IndexError <->
   starts_with_letter (normalize_separators interface) = false) /\
  (starts_with_letter (normalize_separators interface) = true ->
   exists interface_type,
     item0 (findall_interface_type (normalize_separators interface))
     = inr interface_type /\
     Py.startswith interface_type (normalize_separators interface) = true /\
     match INTERFACE_MAP s !! interface_type with
     | None =>
         _clean_interface_hostname s hostname interface
         = inl (UnknownInterfaceType interface_type)
     | Some _ =>
         exists out, _clean_interface_hostname s hostname interface = inr out
     end) /\
  (forall e,
      _clean_interface_hostname s hostname interface = inl e ->
      e = IndexError \/
      exists interface_type,
        e = UnknownInterfaceType interface_type /\
        INTERFACE_MAP s !! interface_type = None).
Proof.
  unfold _clean_interface_hostname.
  destruct (findall_interface_type (normalize_separators interface))
    as [|ty rest] eqn:Hall.
  - pose proof (findall_interface_type_nil _ Hall) as Hno.
    cbn [item0]. rewrite Hno.
    split; [split; reflexivity|]. split; [discriminate|].
    intros e [= <-]. left. reflexivity.
  - assert (Hty : item0 (findall_interface_type
                           (normalize_separators interface)) = inr ty)
      by (rewrite Hall; reflexivity).
    assert (Hyes : starts_with_letter (normalize_separators interface) = true).
    { destruct (starts_with_letter (normalize_separators interface)) eqn:Hs;
        [reflexivity|].
      rewrite (findall_interface_type_no_letter _ Hs) in Hall.
      discriminate Hall. }
    pose proof (findall_interface_type_prefix _ _ Hty) as Hpre.
    rewrite Hall in Hty. rewrite Hyes. cbn [item0] in Hty |- *.
    destruct (INTERFACE_MAP s !! ty) as [short|] eqn:Hmap.
    + split; [|split].
      * split; [|discriminate].
        destruct (String.length _ =? 0)%nat; discriminate.
      * intros _. exists ty. split; [reflexivity|]. split; [exact Hpre|].
        rewrite Hmap. destruct (String.length _ =? 0)%nat; eauto.
      * intros e. destruct (String.length _ =? 0)%nat; discriminate.
    + split; [|split].
      * split; discriminate.
      * intros _. exists ty. split; [reflexivity|]. split; [exact Hpre|].
        rewrite Hmap. reflexivity.
      * intros e [= <-]. right. exists ty. split; [reflexivity|exact Hmap].
Qed.

Lemma clean_interface_hostname_raises_witness :
  _clean_interface_hostname shipped "sw1" "0/1" = inl IndexError /\
  _clean_interface_hostname shipped "sw1" "Wireless0/1" <> inl IndexError /\
  exists interface_type,
    Py.startswith interface_type (normalize_separators "Wireless0/1") = true /\
    INTERFACE_MAP shipped !! interface_type = None /\
    _clean_interface_hostname shipped "sw1" "Wireless0/1"
    = inl (UnknownInterfaceType interface_type).
Proof.
  destruct (clean_interface_hostname_raises shipped "sw1" "0/1")
    as [Hidx _].
  destruct (clean_interface_hostname_raises shipped "sw1" "Wireless0/1")
    as (Hidx' & Hletter & _).
  split; [apply Hidx; reflexivity|].
  split; [intros H; apply Hidx' in H; discriminate H|].
  destruct (Hletter eq_refl) as (ty & Hty & Hpre & Hcase).
  assert (ty = "wireless") as -> by (vm_compute in Hty; congruence).
  exists "wireless". split; [exact Hpre|].
  assert (Hmap : INTERFACE_MAP shipped !! "wireless" = None)
    by (vm_compute; reflexivity).
  split; [exact Hmap|]. rewrite Hmap in Hcase. exact Hcase.
Defined.

(** X7: about [_clean_interface_hostname]: when it returns, the result is the
    device hostname as given, a dash, the abbreviation that the table holds
    for a prefix of the normalised text, and a tail that does not depend on
    the device hostname. *)
Theorem clean_interface_hostname_returns
    (s : settings) (hostname interface out : string) :
  _clean_interface_hostname s hostname interface = inr out ->
  exists interface_type short tail,
    Py.startswith interface_type (normalize_separators interface) = true /\
    INTERFACE_MAP s !! interface_type = Some short /\
    out = hostname +:+ "-" +:+ short +:+ tail /\
    forall other,
      _clean_interface_hostname s other interface
      = inr (other +:+ "-" +:+ short +:+ tail).
Proof.
  unfold _clean_interface_hostname.
  destruct (item0 (findall_interface_type (normalize_separators interface)))
    as [e0|ty] eqn:Hty; [discriminate|].
  destruct (INTERFACE_MAP s !! ty) as [short|] eqn:Hmap; [|discriminate].
  pose proof (findall_interface_type_prefix _ _ Hty) as Hpre.
  destruct (String.length _ =? 0)%nat eqn:Hlen; intros [= <-].
  - exists ty, short, EmptyString. rewrite append_empty_r.
    split; [exact Hpre|]. split; [exact Hmap|]. split; [reflexivity|].
    intros other. reflexivity.
  - eexists ty, short, _.
    split; [exact Hpre|]. split; [exact Hmap|]. split; [reflexivity|].
    intros other. reflexivity.
Qed.

Lemma clean_interface_hostname_returns_witness :
  _clean_interface_hostname shipped "sw1" "TenGigabitEthernet1/0/2"
  = inr "sw1-te-1-0-2" /\
  _clean_interface_hostname shipped "core-rtr" "TenGigabitEthernet1/0/2"
  = inr "core-rtr-te-1-0-2".
Proof.
  assert (H : _clean_interface_hostname shipped "sw1" "TenGigabitEthernet1/0/2"
              = inr "sw1-te-1-0-2")
    by (vm_compute; reflexivity).
  split; [exact H|].
  destruct (clean_interface_hostname_returns _ _ _ _ H)
    as (ty & short & tail & _ & _ & Hout & Hother).
  rewrite (Hother "core-rtr").
  change "sw1-te-1-0-2" with ("sw1" +:+ "-te-1-0-2") in Hout.
  apply append_cancel_l in Hout. rewrite <- Hout. reflexivity.
Defined.

(** X8: about the separator substitutions of [_clean_interface_hostname]: the
    normalised text holds no uppercase letter, underscore, dot, colon or
    slash. *)
Theorem normalize_separators_alphabet (interface : string) :
  all_chars interface_char (normalize_separators interface) = true.
Proof.
  unfold normalize_separators.
  apply collapse_all_chars, collapse_all_chars.
  unfold interface_char. rewrite !all_chars_and.
  repeat (apply andb_true_iff; split).
  - repeat (apply replace_one_all_chars; [reflexivity|]). apply lower_no_upper.
  - do 3 (apply replace_one_all_chars; [reflexivity|]).
    apply replace_one_removes. reflexivity.
  - do 2 (apply replace_one_all_chars; [reflexivity|]).
    apply replace_one_removes. reflexivity.
  - apply replace_one_all_chars; [reflexivity|].
    apply replace_one_removes. reflexivity.
  - apply replace_one_removes. reflexivity.
Qed.

(** ** Argument checks of the constructor *)

(** X9: about [Address_FQDN.__init__]: the arguments are checked in the order
    address, hostname, domain, and the first one that fails decides the
    exception; a record is returned exactly when the address is an address
    object or a text that parses, the hostname is a string of at least one
    character and the domain is absent or a string. *)
Theorem Address_FQDN_init_argument_checks
    (s : settings) (dns : resolver) (a h d : value) :
  match snd (Address_FQDN_init s dns a h d) with
  | inl e =>
      e = (if negb (address_argument_ok a) then InvalidAddress
           else if negb (hostname_argument_ok h) then InvalidHostname
           else Exception "Improper argument:  domain") /\
      address_argument_ok a && hostname_argument_ok h && domain_argument_ok d
      = false
  | inr _ =>
      address_argument_ok a && hostname_argument_ok h && domain_argument_ok d
      = true
  end.
Proof.
  unfold Address_FQDN_init. rewrite snd_bind.
  assert (Ha : snd (init_ipv4_address a h)
               = inl InvalidAddress /\ address_argument_ok a = false
               \/ (exists ip, snd (init_ipv4_address a h) = inr ip)
                  /\ address_argument_ok a = true).
  { destruct a as [|text|ip|n]; cbn; auto.
    - destruct (ipaddress.parse text); cbn; eauto.
    - eauto. }
  destruct Ha as [[-> ->]|[[ip ->] ->]]; [split; reflexivity|].
  rewrite snd_bind.
  assert (Hh : snd (init_hostname h)
               = inl InvalidHostname /\ hostname_argument_ok h = false
               \/ (exists hn, snd (init_hostname h) = inr hn)
                  /\ hostname_argument_ok h = true).
  { destruct h as [|[|c raw]|ip'|n]; cbn; eauto. }
  destruct Hh as [[-> ->]|[[hn ->] ->]]; [split; reflexivity|].
  rewrite snd_bind.
  assert (Hd : snd (init_domain s h d)
               = inl (Exception "Improper argument:  domain")
                 /\ domain_argument_ok d = false
               \/ (exists dm, snd (init_domain s h d) = inr dm)
                  /\ domain_argument_ok d = true).
  { destruct d as [|[|c raw]|ip'|n]; cbn; eauto. }
  destruct Hd as [[-> ->]|[[dm ->] ->]]; [split; reflexivity|].
  rewrite snd_bind.
  destruct (init_forward_lookup_returns dns (hn +:+ "." +:+ dm)
              (Py.strip (ipaddress.compressed ip))) as (fwd & -> & _).
  rewrite snd_bind.
  destruct (init_reverse_lookup_returns s dns (hn +:+ "." +:+ dm) hn
              (Py.strip (ipaddress.compressed ip))) as (rvs & -> & _).
  reflexivity.
Qed.

Lemma bind_raises {A B} (m : M A) (k : A -> M B) (w : list log_record) (e : exn) :
  m = (w, inl e) -> bind m k = (w, inl e).
Proof. intros ->. reflexivity. Qed.

(** X10: about [Address_FQDN.__init__]: a construction that raises has made no
    lookup: with any other resolver it raises the same exception after the
    same log records. *)
Theorem Address_FQDN_init_raises_before_lookup
    (s : settings) (dns dns' : resolver) (a h d : value) (e : exn) :
  snd (Address_FQDN_init s dns a h d) = inl e ->
  Address_FQDN_init s dns' a h d = Address_FQDN_init s dns a h d.
Proof.
  unfold Address_FQDN_init. intros H.
  destruct (init_ipv4_address a h) as [w1 [e1|ip]]; [reflexivity|].
  cbn [bind] in *.
  destruct (init_hostname h) as [w2 [e2|hn]]; [reflexivity|].
  cbn [bind] in *.
  destruct (init_domain s h d) as [w3 [e3|dm]]; [reflexivity|].
  exfalso. revert H. cbn [bind].
  destruct (init_forward_lookup_returns dns (hn +:+ "." +:+ dm)
              (Py.strip (ipaddress.compressed ip))) as (fwd & Hf & _).
  destruct (init_reverse_lookup_returns s dns (hn +:+ "." +:+ dm) hn
              (Py.strip (ipaddress.compressed ip))) as (rvs & Hr & _).
  destruct (init_forward_lookup dns _ _) as [w4 r4]. cbn [snd] in Hf. subst r4.
  cbn [bind].
  destruct (init_reverse_lookup s dns _ _ _) as [w5 r5]. cbn [snd] in Hr.
  subst r5. cbn. discriminate.
Qed.

Lemma Address_FQDN_init_raises_before_lookup_witness :
  snd (Address_FQDN_init shipped no_dns (VStr "10.0.0.256") (VStr "sw3") VNone)
  = inl InvalidAddress /\
  Address_FQDN_init shipped interface_ptr_dns
    (VStr "10.0.0.256") (VStr "sw3") VNone
  = Address_FQDN_init shipped no_dns (VStr "10.0.0.256") (VStr "sw3") VNone.
Proof.
  assert (H : snd (Address_FQDN_init shipped no_dns
                     (VStr "10.0.0.256") (VStr "sw3") VNone)
              = inl InvalidAddress)
    by (vm_compute; reflexivity).
  split; [exact H|].
  apply (Address_FQDN_init_raises_before_lookup _ _ _ _ _ _ _ H).
Defined.

(** ** What the lookup attributes of a record say *)

(** X11: about [Address_FQDN.__init__]: an existing value is the answer of the
    resolver, and a record that asks for no update is backed by it: the
    forward answer is [ip_address]; the reverse answer is [full_name], or,
    with [PREFER_INTERFACE_FQDN_PTR] on, a name that begins with [hostname]
    and a dash.  A lookup that failed always asks for an update. *)
Theorem no_update_needed_sound
    (s : settings) (dns : resolver) (a h d : value) (r : Address_FQDN) :
  snd (Address_FQDN_init s dns a h d) = inr r ->
  (forall v, forward_lookup_existing_value r = Some v <->
             gethostbyname dns (full_name r) = Resolved v) /\
  (forall v, reverse_lookup_existing_value r = Some v <->
             gethostbyaddr dns (ip_address r) = Resolved v) /\
  (forward_lookup_exists r = false <-> forward_lookup_existing_value r = None) /\
  (reverse_lookup_exists r = false <-> reverse_lookup_existing_value r = None) /\
  (forward_lookup_needs_update r = false ->
   forward_lookup_existing_value r = Some (ip_address r)) /\
  (reverse_lookup_needs_update r = false ->
   reverse_lookup_existing_value r = Some (full_name r) \/
   exists name,
     reverse_lookup_existing_value r = Some name /\
     Py.startswith (hostname r +:+ "-") name = true /\
     PREFER_INTERFACE_FQDN_PTR s = true).
Proof.
  intros H.
  destruct (Address_FQDN_init_returns _ _ _ _ _ _ H)
    as (ip & hn & dm & fwd & rvs & _ & _ & _ & Hf & Hr & ->).
  cbn [full_name ip_address hostname forward_lookup_exists
       forward_lookup_needs_update forward_lookup_existing_value
       reverse_lookup_exists reverse_lookup_needs_update
       reverse_lookup_existing_value].
  destruct (init_forward_lookup_returns dns (hn +:+ "." +:+ dm)
              (Py.strip (ipaddress.compressed ip))) as (t & Ht & Hfc).
  rewrite Hf in Ht. injection Ht as <-.
  destruct (init_reverse_lookup_returns s dns (hn +:+ "." +:+ dm) hn
              (Py.strip (ipaddress.compressed ip))) as (t & Ht & Hrc).
  rewrite Hr in Ht. injection Ht as <-.
  destruct (gethostbyname dns _) as [info|err]; subst fwd;
    destruct (gethostbyaddr dns _) as [name|err']; subst rvs; cbn [fst snd].
  all: repeat split; try congruence; try discriminate.
  all: try (intros Hn; apply negb_false_iff in Hn).
  all: try (apply String.eqb_eq in Hn; congruence).
  all: try (apply orb_true_iff in Hn as [Hn|Hn];
            [apply String.eqb_eq in Hn; left; congruence
            |apply andb_true_iff in Hn as [Hsw Hp]; right; eauto]).
Qed.

Lemma no_update_needed_sound_witness :
  snd (Address_FQDN_init shipped interface_ptr_dns
         (VStr "10.0.0.1") (VStr "sw1") VNone)
  = inr record_sw1_interface_ptr /\
  forward_lookup_existing_value record_sw1_interface_ptr
  = Some (ip_address record_sw1_interface_ptr).
Proof.
  assert (H : snd (Address_FQDN_init shipped interface_ptr_dns
                     (VStr "10.0.0.1") (VStr "sw1") VNone)
              = inr record_sw1_interface_ptr)
    by (vm_compute; reflexivity).
  split; [exact H|].
  destruct (no_update_needed_sound _ _ _ _ _ _ H) as (_ & _ & _ & _ & Hfwd & _).
  apply Hfwd. reflexivity.
Defined.

(** ** Shape of the names in a record *)

Lemma lstrip_begins (x : string) : begins_with Py.is_space (Py.lstrip x) = false.
Proof.
  induction x as [|c x IH]; [reflexivity|].
  cbn [Py.lstrip]. destruct (Py.is_space c) eqn:Hc; [exact IH|].
  cbn [begins_with]. exact Hc.
Qed.

Lemma rstrip_ends (x : string) : ends_with Py.is_space (Py.rstrip x) = false.
Proof.
  induction x as [|c x IH]; [reflexivity|].
  cbn [Py.rstrip]. destruct (Py.rstrip x) as [|d y] eqn:Hr.
  - destruct (Py.is_space c) eqn:Hc; [reflexivity|]. cbn [ends_with]. exact Hc.
  - exact IH.
Qed.

Lemma lstrip_ends (x : string) :
  ends_with Py.is_space x = false -> ends_with Py.is_space (Py.lstrip x) = false.
Proof.
  induction x as [|c x IH]; [reflexivity|].
  cbn [Py.lstrip]. destruct (Py.is_space c) eqn:Hc; [|auto].
  destruct x as [|d x]; [reflexivity|]. intros H. apply IH. exact H.
Qed.

Lemma lower_char_space (c : ascii) :
  Py.is_space (Py.lower_char c) = Py.is_space c.
Proof. destruct c as [[] [] [] [] [] [] [] []]; reflexivity. Qed.

Lemma lower_begins_space (x : string) :
  begins_with Py.is_space (Py.lower x) = begins_with Py.is_space x.
Proof. destruct x as [|c x]; [reflexivity|]. apply lower_char_space. Qed.

Lemma lower_ends_space (x : string) :
  ends_with Py.is_space (Py.lower x) = ends_with Py.is_space x.
Proof.
  induction x as [|c x IH]; [reflexivity|].
  destruct x as [|d x]; [apply lower_char_space|].
  cbn [Py.lower ends_with] in IH |- *. exact IH.
Qed.

Lemma lower_strip_trimmed (x : string) :
  begins_with Py.is_space (Py.lower (Py.strip x)) = false /\
  ends_with Py.is_space (Py.lower (Py.strip x)) = false.
Proof.
  unfold Py.strip. rewrite lower_begins_space, lower_ends_space. split.
  - apply lstrip_begins.
  - apply lstrip_ends, rstrip_ends.
Qed.

Lemma init_hostname_form (h : value) (hn : string) :
  snd (init_hostname h) = inr hn -> exists x, hn = Py.lower (Py.strip x).
Proof.
  destruct h as [|raw|ip|n]; try (cbn; discriminate).
  unfold init_hostname.
  destruct (String.length raw =? 0)%nat; [cbn; discriminate|].
  cbn [ret snd]. intros [= <-]. exists raw. reflexivity.
Qed.

Lemma init_domain_form (s : settings) (h d : value) (dm : string) :
  snd (init_domain s h d) = inr dm -> exists x, dm = Py.lower (Py.strip x).
Proof.
  unfold init_domain. rewrite snd_bind.
  destruct d as [|raw|ip|n]; try (cbn; discriminate).
  - cbn [ret snd]. intros [= <-]. eexists. reflexivity.
  - destruct (String.length raw =? 0)%nat.
    + rewrite snd_bind. cbn [log ret snd]. intros [= <-]. eexists. reflexivity.
    + cbn [ret snd]. intros [= <-]. eexists. reflexivity.
Qed.

(** X12: about [Address_FQDN.__init__]: in every record [full_name] is
    [hostname], a dot and [domain]; it holds no uppercase letter, and
    neither [hostname] nor [domain] begins or ends with white space. *)
Theorem record_names_normalised
    (s : settings) (dns : resolver) (a h d : value) (r : Address_FQDN) :
  snd (Address_FQDN_init s dns a h d) = inr r ->
  full_name r = hostname r +:+ "." +:+ domain r /\
  all_chars (fun c => negb (Py.is_upper c)) (full_name r) = true /\
  begins_with Py.is_space (hostname r) = false /\
  ends_with Py.is_space (hostname r) = false /\
  begins_with Py.is_space (domain r) = false /\
  ends_with Py.is_space (domain r) = false.
Proof.
  intros H.
  destruct (Address_FQDN_init_returns _ _ _ _ _ _ H)
    as (ip & hn & dm & fwd & rvs & _ & Hhn & Hdm & _ & _ & ->).
  cbn [full_name hostname domain].
  destruct (init_hostname_form _ _ Hhn) as (x & ->).
  destruct (init_domain_form _ _ _ _ Hdm) as (y & ->).
  destruct (lower_strip_trimmed x) as [Hx1 Hx2].
  destruct (lower_strip_trimmed y) as [Hy1 Hy2].
  repeat split; try assumption.
  rewrite !all_chars_app, !lower_no_upper. reflexivity.
Qed.

Lemma record_names_normalised_witness :
  snd (Address_FQDN_init shipped no_dns
         (VStr "10.0.0.1") (VStr " SW1 ") (VStr " Example.COM "))
  = inr {| ipv4_address := {| ipaddress._ip := 167772161 |};
           ip_address := "10.0.0.1";
           hostname := "sw1";
           domain := "example.com";
           full_name := "sw1.example.com";
           forward_lookup_exists := false;
           forward_lookup_needs_update := true;
           forward_lookup_existing_value := None;
           reverse_lookup_exists := false;
           reverse_lookup_needs_update := true;
           reverse_lookup_existing_value := None;
           ptr_record := "1.0.0.10.in-addr.arpa" |} /\
  all_chars (fun c => negb (Py.is_upper c)) "sw1.example.com" = true.
Proof.
  match goal with
  | |- ?lhs = inr ?rec /\ _ =>
      assert (H : lhs = inr rec) by (vm_compute; reflexivity);
      split; [exact H|];
      destruct (record_names_normalised _ _ _ _ _ _ H) as (_ & Hlow & _)
  end.
  exact Hlow.
Defined.

(** ** Interface names as reverse-lookup answers *)

Lemma clean_interface_hostname_prefix
    (s : settings) (hostname interface out : string) :
  _clean_interface_hostname s hostname interface = inr out ->
  exists tail, out = (hostname +:+ "-") +:+ tail.
Proof.
  unfold _clean_interface_hostname.
  destruct (item0 _) as [e0|ty]; [discriminate|].
  destruct (INTERFACE_MAP s !! ty) as [short|]; [|discriminate].
  destruct (String.length _ =? 0)%nat; intros [= <-];
    eexists; rewrite append_assoc; reflexivity.
Qed.

(** X14: about a node record and the interface names of the same device: when
    the reverse lookup answers with the name that [_clean_interface_hostname]
    builds from the record's [hostname], in any zone, the record asks for no
    update if [PREFER_INTERFACE_FQDN_PTR] is on and for an update if it is
    off. *)
Theorem interface_name_is_preferred_alternate
    (s : settings) (dns : resolver) (a h d : value) (r : Address_FQDN)
    (interface out zone : string) :
  snd (Address_FQDN_init s dns a h d) = inr r ->
  _clean_interface_hostname s (hostname r) interface = inr out ->
  gethostbyaddr dns (ip_address r) = Resolved (out +:+ "." +:+ zone) ->
  reverse_lookup_needs_update r = negb (PREFER_INTERFACE_FQDN_PTR s) /\
  reverse_lookup r
  = (if PREFER_INTERFACE_FQDN_PTR s then MatchesPreferredAlternate
     else ExistsButDiffers) /\
  reverse_lookup_existing_value r = Some (out +:+ "." +:+ zone).
Proof.
  intros H Hout Hres.
  destruct (Address_FQDN_init_returns _ _ _ _ _ _ H)
    as (ip & hn & dm & fwd & rvs & _ & _ & _ & _ & Hr & ->).
  cbn [hostname ip_address] in Hout, Hres.
  destruct (clean_interface_hostname_prefix _ _ _ _ Hout) as (tail & ->).
  destruct (init_reverse_lookup_returns s dns (hn +:+ "." +:+ dm) hn
              (Py.strip (ipaddress.compressed ip))) as (t & Ht & Hcase).
  rewrite Hr in Ht. injection Ht as <-. rewrite Hres in Hcase. subst rvs.
  set (name := ((hn +:+ "-") +:+ tail) +:+ "." +:+ zone) in *.
  assert (Hsw : Py.startswith (hn +:+ "-") name = true).
  { unfold name. rewrite append_assoc. apply startswith_app. }
  assert (Hne : String.eqb name (hn +:+ "." +:+ dm) = false).
  { apply String.eqb_neq. intros Heq. rewrite Heq in Hsw.
    rewrite startswith_dash_not_dot in Hsw. discriminate. }
  unfold reverse_lookup.
  cbn [reverse_lookup_exists reverse_lookup_needs_update
       reverse_lookup_existing_value full_name fst snd negb].
  rewrite Hne, Hsw. cbn [orb andb].
  destruct (PREFER_INTERFACE_FQDN_PTR s); repeat split.
Qed.

Lemma interface_name_is_preferred_alternate_witness :
  snd (Address_FQDN_init shipped interface_ptr_dns
         (VStr "10.0.0.1") (VStr "sw1") VNone)
  = inr record_sw1_interface_ptr /\
  _clean_interface_hostname shipped "sw1" "GigabitEthernet0/1"
  = inr "sw1-gi-0-1" /\
  reverse_lookup record_sw1_interface_ptr = MatchesPreferredAlternate.
Proof.
  assert (H : snd (Address_FQDN_init shipped interface_ptr_dns
                     (VStr "10.0.0.1") (VStr "sw1") VNone)
              = inr record_sw1_interface_ptr)
    by (vm_compute; reflexivity).
  assert (Hout : _clean_interface_hostname shipped
                   (hostname record_sw1_interface_ptr) "GigabitEthernet0/1"
                 = inr "sw1-gi-0-1")
    by (vm_compute; reflexivity).
  split; [exact H|]. split; [exact Hout|].
  destruct (interface_name_is_preferred_alternate
              shipped interface_ptr_dns _ _ _ _
              "GigabitEthernet0/1" "sw1-gi-0-1" "gatesint.com" H Hout eq_refl)
    as (_ & Hstatus & _).
  exact Hstatus.
Defined.

(** ** The preparation loops, row by row *)

(** The first loop on one row, without the log. *)
Lemma clean_row_result (s : settings) (address : gmap string string) :
  snd (clean_row s address)
  = match address !! "device_hostname" with
    | None => inl (KeyError "device_hostname")
    | Some dh =>
        let h0 := _clean_device_hostname dh in
        match address !! "interface_name" with
        | Some interface_name =>
            if (0 <? String.length interface_name)%nat
            then match _clean_interface_hostname s h0 interface_name with
                 | inr cleaned => inr (<["device_hostname" := cleaned]> address)
                 | inl _ =>
                     match address !! "ip_address" with
                     | Some _ => inr (<["device_hostname" := h0]> address)
                     | None => inl (KeyError "ip_address")
                     end
                 end
            else inr (<["device_hostname" := h0]> address)
        | None => inr (<["device_hostname" := h0]> address)
        end
    end.
Proof.
  unfold clean_row. rewrite snd_bind.
  unfold lift at 1, getitem at 1.
  destruct (address !! "device_hostname") as [dh|] eqn:Hdh; [|reflexivity].
  cbn [snd]. cbv zeta.
  set (h0 := _clean_device_hostname dh).
  match goal with
  | |- context [ ?m !! "interface_name" ] => set (address1 := m)
  end.
  assert (Hget : getitem address1 "device_hostname" = inr h0).
  { unfold getitem, address1. rewrite lookup_insert_eq. reflexivity. }
  assert (Hif : address1 !! "interface_name" = address !! "interface_name").
  { unfold address1. rewrite lookup_insert_ne by discriminate. reflexivity. }
  assert (Hip : address1 !! "ip_address" = address !! "ip_address").
  { unfold address1. rewrite lookup_insert_ne by discriminate. reflexivity. }
  rewrite Hif.
  destruct (address !! "interface_name") as [interface_name|]; [|reflexivity].
  destruct (0 <? String.length interface_name)%nat; [|reflexivity].
  rewrite snd_try_except, snd_bind. unfold lift at 1. cbn [snd].
  rewrite Hget, snd_bind. unfold lift at 1. cbn [snd].
  destruct (_clean_interface_hostname s h0 interface_name) as [e|cleaned].
  - rewrite snd_bind. unfold lift at 1. cbn [snd].
    rewrite snd_bind. unfold lift at 1, getitem at 1. cbn [snd]. rewrite Hip.
    destruct (address !! "ip_address"); [|reflexivity].
    rewrite snd_bind. reflexivity.
  - cbn [ret snd]. unfold address1. rewrite insert_insert_eq. reflexivity.
Qed.

Lemma for_each_snoc_inv {A B} (f : A -> M B)
    (xs : list A) (acc zs : list B) :
  snd (for_each (fun acc x => let* y := f x in ret (acc ++ [y])) xs acc)
  = inr zs ->
  exists ys, zs = acc ++ ys /\ Forall2 (fun x y => snd (f x) = inr y) xs ys.
Proof.
  revert acc. induction xs as [|x xs IH]; intros acc.
  - cbn. intros [= <-]. exists []. rewrite app_nil_r. split; constructor.
  - cbn [for_each]. rewrite snd_bind, snd_bind.
    destruct (snd (f x)) as [e|y] eqn:Hx; [discriminate|].
    cbn [ret snd]. intros H. destruct (IH _ H) as (ys & -> & Hys).
    exists (y :: ys). rewrite <- app_assoc. split; [reflexivity|].
    constructor; assumption.
Qed.

(** When the two loops return, every row had both mandatory columns. *)
Lemma prepare_returns_inv
    (s : settings) (address_table : list (gmap string string))
    (table : list address_data) :
  snd (prepare s address_table) = inr table ->
  Forall has_required_keys address_table.
Proof.
  unfold prepare. rewrite snd_bind.
  destruct (snd (for_each _ address_table [])) as [e|cleaned] eqn:Hc;
    [discriminate|].
  intros Ht.
  destruct (for_each_snoc_inv (clean_row s) _ _ _ Hc) as (ys & -> & Hys).
  destruct (for_each_snoc_inv (fun address => lift (to_address_data address))
              _ _ _ Ht) as (kws & _ & Hkws).
  cbn [app] in Hkws. clear Hc Ht.
  revert kws Hkws. induction Hys as [|x y xs ys Hxy _ IH]; intros kws Hkws.
  - constructor.
  - inversion Hkws as [|y' kw ys' kws' Hkw Hrest]; subst.
    constructor; [|eapply IH; eassumption].
    rewrite clean_row_result in Hxy. unfold lift in Hkw. cbn [snd] in Hkw.
    unfold to_address_data, getitem in Hkw. unfold has_required_keys.
    destruct (x !! "device_hostname") as [dh|] eqn:Hdh; [|discriminate].
    split; [|eexists; reflexivity].
    destruct (x !! "ip_address") as [ip|] eqn:Hip; [eexists; reflexivity|].
    exfalso.
    assert (Hy : exists h, y = <["device_hostname" := h]> x).
    { cbv zeta in Hxy.
      destruct (x !! "interface_name") as [i|].
      - destruct (0 <? String.length i)%nat.
        + destruct (_clean_interface_hostname s _ i);
            [discriminate | injection Hxy as <-; eauto].
        + injection Hxy as <-; eauto.
      - injection Hxy as <-; eauto. }
    destruct Hy as (h & ->).
    rewrite lookup_insert_ne in Hkw by discriminate.
    rewrite Hip in Hkw. discriminate.
Qed.

(** X15: about [main]: on a table with at least one row, an exception leaves
    [main] exactly when some row lacks [ip_address] or [device_hostname], and
    it is the [KeyError] of one of these two keys; no other failure of a row
    ends the run. *)
Theorem main_raises_iff_missing_column
    (s : settings) (dns : resolver)
    (address_table : list (gmap string string)) :
  address_table <> [] ->
  ((exists e, main_returns s dns address_table (inl e)) <->
   ~ Forall has_required_keys address_table) /\
  (forall e, main_returns s dns address_table (inl e) ->
             e = KeyError "ip_address" \/ e = KeyError "device_hostname").
Proof.
  intros Hne. split; [split|].
  - intros (e & He). apply (main_raises _ _ _ _ He).
  - intros Hkeys.
    destruct (snd (prepare s address_table)) as [e|table] eqn:Hprep.
    + exists e. destruct (MULTITHREAD s) eqn:Hmt.
      * apply main_key_error; assumption.
      * assert (Hseq : snd (main_sequential s dns address_table) = inl e).
        { unfold main_sequential.
          destruct address_table as [|row rows]; [congruence|].
          cbn [length Nat.eqb]. rewrite snd_bind, Hprep. reflexivity. }
        rewrite <- Hseq. apply main_one_thread, Hmt.
    + exfalso. apply Hkeys. eapply prepare_returns_inv, Hprep.
  - intros e He. apply (main_raises _ _ _ _ He).
Qed.

Lemma main_raises_iff_missing_column_witness :
  [ (∅ : gmap string string) ] <> [] /\
  exists e, main_returns shipped no_dns [ (∅ : gmap string string) ] (inl e).
Proof.
  split; [discriminate|].
  destruct (main_raises_iff_missing_column shipped no_dns
              [ (∅ : gmap string string) ]) as [[_ Hraise] _];
    [discriminate|].
  apply Hraise. intros Hkeys.
  inversion Hkeys as [|x xs [[ip Hip] _] _]; subst.
  discriminate Hip.
Defined.

(** ** One thread or a pool *)

(** X16: about [main]: whatever [MULTITHREAD] is, what [main] returns agrees
    with the run of the loop on one thread: the same exception, or the same
    status and the same records, in another order at most. *)
Theorem main_modes_agree
    (s : settings) (dns : resolver)
    (address_table : list (gmap string string)) (out : result main_return) :
  main_returns s dns address_table out ->
  match out, snd (main_sequential s dns address_table) with
  | inl e, inl e' => e = e'
  | inr r, inr r' =>
      status r = status r' /\
      match data r, data r' with
      | Some address_objects, Some address_objects' =>
          Permutation address_objects' address_objects
      | None, None => True
      | _, _ => False
      end
  | _, _ => False
  end.
Proof.
  intros H.
  destruct H as [Hmt | Hmt -> | e Hmt Hne He | table objs Hmt Hne Ht Hperm].
  - destruct (snd (main_sequential s dns address_table)) as [e|r];
      [reflexivity|].
    split; [reflexivity|]. destruct (data r); auto.
  - cbn. auto.
  - unfold main_sequential.
    destruct address_table as [|row rows]; [congruence|].
    cbn [length Nat.eqb]. rewrite snd_bind, He. reflexivity.
  - rewrite (main_sequential_returns s dns address_table table Hne Ht).
    cbn [status data]. auto.
Qed.

Lemma main_modes_agree_witness :
  main_returns shipped no_dns [row_plain; row_bad_address]
    (snd (main_sequential shipped no_dns [row_plain; row_bad_address])) /\
  exists r,
    snd (main_sequential shipped no_dns [row_plain; row_bad_address]) = inr r /\
    status r = true.
Proof.
  assert (Hprep : exists table,
             snd (prepare shipped [row_plain; row_bad_address]) = inr table).
  { eexists. vm_compute. reflexivity. }
  destruct Hprep as (table & Hprep).
  assert (Hseq : snd (main_sequential shipped no_dns
                        [row_plain; row_bad_address])
                 = inr {| status := true;
                          data := Some (built shipped no_dns table) |})
    by (apply main_sequential_returns; [discriminate | exact Hprep]).
  assert (H : main_returns shipped no_dns [row_plain; row_bad_address]
                (snd (main_sequential shipped no_dns
                        [row_plain; row_bad_address]))).
  { rewrite Hseq. eapply main_pool;
      [reflexivity | discriminate | exact Hprep | reflexivity]. }
  split; [exact H|].
  pose proof (main_modes_agree _ _ _ _ H) as Hagree.
  rewrite Hseq in Hagree |- *. eexists. split; [reflexivity|].
  destruct Hagree as [Hstatus _]. exact Hstatus.
Defined.

(** ** Columns that [main] does not read *)

Lemma for_each_snoc_rel {A A' B B'} (f : A -> M B) (f' : A' -> M B')
    (R : A -> A' -> Prop) (Q : B -> B' -> Prop)
    (xs : list A) (xs' : list A') (acc : list B) (acc' : list B') :
  (forall x x', R x x' ->
     match snd (f x), snd (f' x') with
     | inl e, inl e' => e = e'
     | inr y, inr y' => Q y y'
     | _, _ => False
     end) ->
  Forall2 R xs xs' ->
  Forall2 Q acc acc' ->
  match snd (for_each (fun acc x => let* y := f x in ret (acc ++ [y])) xs acc),
        snd (for_each (fun acc x => let* y := f' x in ret (acc ++ [y])) xs' acc')
  with
  | inl e, inl e' => e = e'
  | inr ys, inr ys' => Forall2 Q ys ys'
  | _, _ => False
  end.
Proof.
  intros Hf Hxs. revert acc acc'.
  induction Hxs as [|x x' xs xs' Hx _ IH]; intros acc acc' Hacc.
  - cbn. exact Hacc.
  - cbn [for_each]. rewrite !snd_bind. specialize (Hf x x' Hx).
    destruct (snd (f x)) as [e|y], (snd (f' x')) as [e'|y'];
      try contradiction; [exact Hf|].
    cbn [ret snd]. apply IH. apply Forall2_app; [exact Hacc|].
    constructor; [exact Hf | constructor].
Qed.

Lemma clean_row_delete_domain_name (s : settings) (address : gmap string string) :
  match snd (clean_row s address),
        snd (clean_row s (delete "domain_name" address)) with
  | inl e, inl e' => e = e'
  | inr y, inr y' => y' = delete "domain_name" y
  | _, _ => False
  end.
Proof.
  rewrite !clean_row_result.
  rewrite !lookup_delete_ne by discriminate.
  destruct (address !! "device_hostname") as [dh|]; [|reflexivity].
  cbv zeta.
  destruct (address !! "interface_name") as [i|].
  - destruct (0 <? String.length i)%nat.
    + destruct (_clean_interface_hostname s _ i).
      * destruct (address !! "ip_address"); [|reflexivity].
        rewrite delete_insert_ne by discriminate. reflexivity.
      * rewrite delete_insert_ne by discriminate. reflexivity.
    + rewrite delete_insert_ne by discriminate. reflexivity.
  - rewrite delete_insert_ne by discriminate. reflexivity.
Qed.

Lemma to_address_data_delete_domain_name (address : gmap string string) :
  to_address_data (delete "domain_name" address) = to_address_data address.
Proof.
  unfold to_address_data, getitem.
  rewrite !lookup_delete_ne by discriminate. reflexivity.
Qed.

Lemma prepare_delete_domain_name
    (s : settings) (address_table : list (gmap string string)) :
  snd (prepare s (map (delete "domain_name") address_table))
  = snd (prepare s address_table).
Proof.
  unfold prepare. rewrite !snd_bind.
  pose proof (for_each_snoc_rel (clean_row s) (clean_row s)
                (fun a a' => a' = delete "domain_name" a)
                (fun y y' => y' = delete "domain_name" y)
                address_table (map (delete "domain_name") address_table)
                [] []) as Hfirst.
  destruct (snd (for_each _ address_table [])) as [e|cleaned],
           (snd (for_each _ (map (delete "domain_name") address_table) []))
             as [e'|cleaned'].
  - f_equal. symmetry. apply Hfirst; [| |constructor].
    + intros x x' ->. apply clean_row_delete_domain_name.
    + clear. induction address_table; constructor; auto.
  - exfalso. apply Hfirst; [| |constructor].
    + intros x x' ->. apply clean_row_delete_domain_name.
    + clear. induction address_table; constructor; auto.
  - exfalso. apply Hfirst; [| |constructor].
    + intros x x' ->. apply clean_row_delete_domain_name.
    + clear. induction address_table; constructor; auto.
  - assert (Hc : Forall2 (fun y y' => y' = delete "domain_name" y)
                   cleaned cleaned').
    { apply Hfirst; [| |constructor].
      + intros x x' ->. apply clean_row_delete_domain_name.
      + clear. induction address_table; constructor; auto. }
    pose proof (for_each_snoc_rel
                  (fun address => lift (to_address_data address))
                  (fun address => lift (to_address_data address))
                  (fun y y' => y' = delete "domain_name" y) eq
                  cleaned cleaned' [] []) as Hsecond.
    destruct (snd (for_each _ cleaned [])) as [e|kws],
             (snd (for_each _ cleaned' [])) as [e'|kws'].
    + f_equal. symmetry. apply Hsecond; [|exact Hc|constructor].
      intros y y' ->. unfold lift. cbn [snd].
      rewrite to_address_data_delete_domain_name.
      destruct (to_address_data y); reflexivity.
    + exfalso. apply Hsecond; [|exact Hc|constructor].
      intros y y' ->. unfold lift. cbn [snd].
      rewrite to_address_data_delete_domain_name.
      destruct (to_address_data y); reflexivity.
    + exfalso. apply Hsecond; [|exact Hc|constructor].
      intros y y' ->. unfold lift. cbn [snd].
      rewrite to_address_data_delete_domain_name.
      destruct (to_address_data y); reflexivity.
    + f_equal. symmetry. apply list_eq_Forall2.
      apply Hsecond; [|exact Hc|constructor].
      intros y y' ->. unfold lift. cbn [snd].
      rewrite to_address_data_delete_domain_name.
      destruct (to_address_data y); reflexivity.
Qed.

Lemma main_returns_same_prepare
    (s : settings) (dns : resolver)
    (t t' : list (gmap string string)) (out : result main_return) :
  snd (prepare s t') = snd (prepare s t) ->
  length t' = length t ->
  main_returns s dns t out -> main_returns s dns t' out.
Proof.
  intros Hprep Hlen H.
  assert (Hnil : t = [] <-> t' = []).
  { destruct t, t'; cbn in Hlen; split; congruence. }
  destruct H as [Hmt | Hmt Hempty | e Hmt Hne He | table objs Hmt Hne Ht Hperm].
  - assert (Hseq : snd (main_sequential s dns t) = snd (main_sequential s dns t')).
    { unfold main_sequential. rewrite Hlen.
      destruct (length t =? 0)%nat; [reflexivity|].
      rewrite !snd_bind, Hprep. reflexivity. }
    rewrite Hseq. apply main_one_thread, Hmt.
  - apply main_no_data; [exact Hmt | apply Hnil, Hempty].
  - apply main_key_error; [exact Hmt | tauto | congruence].
  - eapply main_pool; [exact Hmt | tauto | | exact Hperm]. congruence.
Qed.

(** X17: about [main]: the optional column is read under the key [domain]; a
    column named [domain_name], the name given in the docstring of the
    module, is never read: removing it from every row changes nothing in
    what [main] returns. *)
Theorem domain_name_column_is_ignored
    (s : settings) (dns : resolver)
    (address_table : list (gmap string string)) (out : result main_return) :
  main_returns s dns (map (delete "domain_name") address_table) out <->
  main_returns s dns address_table out.
Proof.
  pose proof (prepare_delete_domain_name s address_table) as Hprep.
  assert (Hlen : length (map (delete "domain_name") address_table)
                 = length address_table) by apply length_map.
  split; apply main_returns_same_prepare; congruence.
Qed.

(** ** [tools.table_to_dictionary] *)

Lemma dict_fold_lookup_other
    (columns row : list string) (m : gmap string string) (c : string) :
  c ∉ columns ->
  fold_left (fun d kv => <[fst kv := snd kv]> d) (zip columns row) m !! c
  = m !! c.
Proof.
  revert row m. induction columns as [|c0 cs IH]; intros row m Hc;
    [reflexivity|].
  destruct row as [|v0 vs]; [reflexivity|].
  apply not_elem_of_cons in Hc as [Hne Hc].
  cbn [zip zip_with fold_left fst snd]. rewrite (IH _ _ Hc).
  rewrite lookup_insert_ne by congruence. reflexivity.
Qed.

Lemma dict_fold_lookup
    (columns row : list string) (m : gmap string string)
    (j : nat) (c : string) :
  NoDup columns ->
  columns !! j = Some c ->
  fold_left (fun d kv => <[fst kv := snd kv]> d) (zip columns row) m !! c
  = match row !! j with
    | Some v => Some v
    | None => m !! c
    end.
Proof.
  revert row m j. induction columns as [|c0 cs IH]; intros row m j Hnd Hj;
    [discriminate|].
  apply NoDup_cons in Hnd as [Hc0 Hnd].
  destruct row as [|v0 vs]; [reflexivity|].
  cbn [zip zip_with fold_left fst snd].
  destruct j as [|j]; cbn in Hj |- *.
  - injection Hj as ->.
    rewrite (dict_fold_lookup_other _ _ _ _ Hc0), lookup_insert_eq.
    reflexivity.
  - rewrite (IH _ _ _ Hnd Hj).
    destruct (vs !! j); [reflexivity|].
    apply lookup_insert_ne. intros ->.
    apply Hc0. eapply list_elem_of_lookup_2, Hj.
Qed.

(** X19: about [table_to_dictionary]: under a header of distinct column names
    there is one dictionary per data row, in order, and the value under a
    column name is the cell of the row at the position of that column; a row
    that is too short to have the cell has no such key. *)
Theorem table_to_dictionary_lookup
    (columns : list string) (rows : list (list string)) :
  NoDup columns ->
  exists dicts,
    table_to_dictionary (columns :: rows) = inr dicts /\
    length dicts = length rows /\
    forall i row j c,
      rows !! i = Some row ->
      columns !! j = Some c ->
      exists d, dicts !! i = Some d /\ d !! c = row !! j.
Proof.
  intros Hnd. eexists. split; [reflexivity|]. split; [apply length_map|].
  intros i row j c Hrow Hc.
  exists (dict (zip columns row)). split.
  - rewrite list_lookup_fmap, Hrow. reflexivity.
  - unfold dict. rewrite (dict_fold_lookup _ _ _ _ _ Hnd Hc).
    destruct (row !! j); reflexivity.
Qed.

Lemma table_to_dictionary_lookup_witness :
  NoDup ["ip_address"; "device_hostname"; "interface_name"] /\
  exists dicts d,
    table_to_dictionary
      [ ["ip_address"; "device_hostname"; "interface_name"];
        ["10.0.0.1"; "sw1"; "Gi0/1"];
        ["10.0.0.2"; "sw2"] ]
    = inr dicts /\
    dicts !! 1%nat = Some d /\
    d !! "device_hostname" = Some "sw2" /\
    d !! "interface_name" = None.
Proof.
  assert (Hnd : NoDup ["ip_address"; "device_hostname"; "interface_name"]).
  { apply (bool_decide_unpack _). vm_compute. reflexivity. }
  split; [exact Hnd|].
  destruct (table_to_dictionary_lookup
              ["ip_address"; "device_hostname"; "interface_name"]
              [ ["10.0.0.1"; "sw1"; "Gi0/1"]; ["10.0.0.2"; "sw2"] ] Hnd)
    as (dicts & Hd & _ & Hlook).
  destruct (Hlook 1%nat ["10.0.0.2"; "sw2"] 1%nat "device_hostname"
              eq_refl eq_refl) as (d & Hd1 & Hhost).
  destruct (Hlook 1%nat ["10.0.0.2"; "sw2"] 2%nat "interface_name"
              eq_refl eq_refl) as (d' & Hd1' & Hif).
  assert (d' = d) as -> by congruence.
  exists dicts, d. repeat split; assumption.
Defined.

Lemma main_returns_record_inv
    (s : settings) (dns : resolver)
    (address_table : list (gmap string string)) (r : main_return) :
  main_returns s dns address_table (inr r) ->
  address_table <> [] ->
  exists table, snd (prepare s address_table) = inr table.
Proof.
  intros H Hne. remember (inr r) as out eqn:Hout.
  destruct H as [Hmt | Hmt Hempty | e Hmt _ He | table objs Hmt _ Ht Hperm].
  - unfold main_sequential in Hout.
    destruct address_table as [|row rows]; [congruence|].
    cbn [length Nat.eqb] in Hout. rewrite snd_bind in Hout.
    destruct (snd (prepare s (row :: rows))) as [e|table];
      [discriminate | eauto].
  - congruence.
  - discriminate.
  - eauto.
Qed.

(** X20: about [main] and [table_to_dictionary]: a file without any row, not
    even the header, ends [main] with [IndexError] instead of the report that
    no data was provided; a file with the header alone gives that report,
    status false and no data; and a file with an empty row, as a blank line
    gives, ends [main] with a [KeyError]. *)
Theorem main_from_csv_edge_rows (s : settings) (dns : resolver) :
  (forall out, main_returns_from_csv s dns [] out <-> out = inl IndexError) /\
  (forall columns out,
      main_returns_from_csv s dns [columns] out <->
      out = inr {| status := false; data := None |}) /\
  (forall columns rows out,
      [] ∈ rows ->
      main_returns_from_csv s dns (columns :: rows) out ->
      out = inl (KeyError "ip_address") \/
      out = inl (KeyError "device_hostname")).
Proof.
  split; [|split].
  - intros out. reflexivity.
  - intros columns out. unfold main_returns_from_csv. cbn. split.
    + intros H.
      destruct H as [Hmt | Hmt _ | e Hmt Hne He | table objs Hmt Hne Ht Hperm];
        [reflexivity | reflexivity | congruence | congruence].
    + intros ->. destruct (MULTITHREAD s) eqn:Hmt.
      * apply main_no_data; [exact Hmt | reflexivity].
      * apply (main_one_thread s dns [] Hmt).
  - intros columns rows out Hblank. unfold main_returns_from_csv.
    cbn [table_to_dictionary]. intros H.
    set (address_table := map (fun row => dict (zip columns row)) rows) in *.
    assert (Hin : (∅ : gmap string string) ∈ address_table).
    { unfold address_table. apply list_elem_of_fmap. exists []. split; [|exact Hblank].
      unfold dict. rewrite zip_with_nil_r. reflexivity. }
    assert (Hne : address_table <> []).
    { intros Hnil. rewrite Hnil in Hin. inversion Hin. }
    assert (Hkeys : ~ Forall has_required_keys address_table).
    { intros Hall. rewrite Forall_forall in Hall.
      destruct (Hall _ Hin) as [[ip Hip] _]. discriminate Hip. }
    destruct out as [e|r].
    + destruct (main_raises _ _ _ _ H) as [[-> | ->] _]; auto.
    + exfalso. apply Hkeys.
      destruct (main_returns_record_inv _ _ _ _ H Hne) as (table & Ht).
      eapply prepare_returns_inv, Ht.
Qed.

(** ** Empty hostnames *)

Lemma lower_char_dot (c : ascii) :
  Ascii.eqb (Py.lower_char c) "." = Ascii.eqb c ".".
Proof. destruct c as [[] [] [] [] [] [] [] []]; reflexivity. Qed.

Lemma collapse_nonempty (c : ascii) (x : string) :
  Py.replace "--" "-" (String c x) <> EmptyString.
Proof.
  destruct (Py.startswith "--" (String c x)) eqn:Hsw.
  - rewrite startswith_double_dash in Hsw.
    apply andb_true_iff in Hsw as [->%Ascii.eqb_eq Hx].
    destruct x as [|d x]; [discriminate|].
    cbn [begins_with] in Hx. apply Ascii.eqb_eq in Hx. subst d.
    rewrite collapse_pair. discriminate.
  - rewrite (collapse_other _ _ Hsw). discriminate.
Qed.

(** X4: about [_clean_device_hostname]: the result is empty exactly when the
    input is empty or begins with a dot; every other input keeps at least one
    character. *)
Theorem clean_device_hostname_empty_iff (h : string) :
  _clean_device_hostname h = EmptyString <->
  h = EmptyString \/ begins_with (fun c => Ascii.eqb c ".") h = true.
Proof.
  split.
  - destruct h as [|c rest]; [auto|]. intros H. right.
    cbn [begins_with].
    destruct (Ascii.eqb c ".") eqn:Hc; [reflexivity|]. exfalso.
    rewrite clean_device_hostname_steps in H. cbn [Py.lower] in H.
    assert (Hlabel : exists y,
               first_label (String (Py.lower_char c) (Py.lower rest))
               = String (Py.lower_char c) y).
    { unfold first_label. cbn [Py.contains_char Py.split].
      rewrite lower_char_dot, Hc.
      destruct (Py.contains_char "." (Py.lower rest)); [|eauto].
      destruct (Py.split "." (Py.lower rest)); cbn [nth]; eauto. }
    destruct Hlabel as (y & Hy). rewrite Hy, replace_one_cons in H.
    match type of H with
    | Py.replace "--" "-" (Py.replace "--" "-" (String ?a ?b)) = _ =>
        destruct (Py.replace "--" "-" (String a b)) as [|a' b'] eqn:Hone;
        [exact (collapse_nonempty a b Hone)
        |exact (collapse_nonempty a' b' H)]
    end.
  - intros [->|Hdot]; [reflexivity|].
    destruct h as [|c rest]; [discriminate|].
    cbn [begins_with] in Hdot. apply Ascii.eqb_eq in Hdot. subst c.
    reflexivity.
Qed.

(** ** Hostnames of the records that [main] returns *)

Lemma lower_char_underscore (c : ascii) :
  Ascii.eqb (Py.lower_char c) "_" = Ascii.eqb c "_".
Proof. destruct c as [[] [] [] [] [] [] [] []]; reflexivity. Qed.

Lemma lower_no_underscore (x : string) :
  all_chars (fun c => negb (Ascii.eqb c "_")) x = true ->
  all_chars (fun c => negb (Ascii.eqb c "_")) (Py.lower x) = true.
Proof.
  induction x as [|c x IH]; [reflexivity|].
  cbn [Py.lower all_chars]. rewrite lower_char_underscore.
  intros [Hc Hx]%andb_true_iff. rewrite Hc, (IH Hx). reflexivity.
Qed.

Lemma lstrip_all_chars (p : ascii -> bool) (x : string) :
  all_chars p x = true -> all_chars p (Py.lstrip x) = true.
Proof.
  induction x as [|c x IH]; [reflexivity|].
  cbn [Py.lstrip]. destruct (Py.is_space c); [|auto].
  cbn [all_chars]. intros [_ Hx]%andb_true_iff. auto.
Qed.

Lemma rstrip_all_chars (p : ascii -> bool) (x : string) :
  all_chars p x = true -> all_chars p (Py.rstrip x) = true.
Proof.
  induction x as [|c x IH]; [reflexivity|].
  cbn [all_chars Py.rstrip]. intros [Hc Hx]%andb_true_iff.
  specialize (IH Hx).
  destruct (Py.rstrip x) as [|d y].
  - destruct (Py.is_space c); [reflexivity|]. cbn [all_chars].
    rewrite Hc. reflexivity.
  - cbn [all_chars] in IH |- *. rewrite Hc, IH. reflexivity.
Qed.

Lemma from_first_all_chars (p q : ascii -> bool) (x t : string) :
  Py.from_first p x = Some t -> all_chars q x = true -> all_chars q t = true.
Proof.
  induction x as [|c x IH]; [discriminate|].
  cbn [Py.from_first all_chars]. destruct (p c).
  - intros [= <-] H. exact H.
  - intros Ht [_ Hx]%andb_true_iff. auto.
Qed.

Lemma split_all_chars (q : ascii -> bool) (sep : ascii) (x : string) :
  all_chars q x = true ->
  Forall (fun w => all_chars q w = true) (Py.split sep x).
Proof.
  induction x as [|c x IH]; [repeat constructor|].
  cbn [all_chars Py.split]. intros [Hc Hx]%andb_true_iff.
  specialize (IH Hx).
  destruct (Ascii.eqb c sep); [constructor; [reflexivity|exact IH]|].
  destruct (Py.split sep x) as [|w ws].
  - repeat constructor. cbn [all_chars]. rewrite Hc. reflexivity.
  - inversion IH as [|? ? Hw Hws]; subst.
    constructor; [|exact Hws]. cbn [all_chars]. rewrite Hc, Hw. reflexivity.
Qed.

Lemma interface_number_all_chars (q : ascii -> bool) (x n : string) :
  all_chars q x = true ->
  item0 (findall_interface_number x) = inr n ->
  all_chars q n = true.
Proof.
  intros Hx. unfold findall_interface_number.
  pose proof (split_all_chars q "010" x Hx) as Hlines.
  induction Hlines as [|w ws Hw _ IH]; [discriminate|].
  cbn [omap list_omap].
  destruct (Py.from_first Py.is_digit w) as [t|] eqn:Ht; [|exact IH].
  cbn [item0]. intros [= <-]. eapply from_first_all_chars; eassumption.
Qed.

Lemma normalize_separators_no_underscore (interface : string) :
  all_chars (fun c => negb (Ascii.eqb c "_")) (normalize_separators interface)
  = true.
Proof.
  unfold normalize_separators.
  apply collapse_all_chars, collapse_all_chars.
  do 3 (apply replace_one_all_chars; [reflexivity|]).
  apply replace_one_removes. reflexivity.
Qed.

Lemma clean_device_hostname_no_underscore (h : string) :
  all_chars (fun c => negb (Ascii.eqb c "_")) (_clean_device_hostname h) = true.
Proof.
  rewrite clean_device_hostname_steps.
  apply collapse_all_chars, collapse_all_chars, replace_one_removes.
  reflexivity.
Qed.

Lemma clean_interface_hostname_no_underscore
    (s : settings) (hostname interface out : string) :
  map_Forall (fun _ short =>
                all_chars (fun c => negb (Ascii.eqb c "_")) short = true)
    (INTERFACE_MAP s) ->
  all_chars (fun c => negb (Ascii.eqb c "_")) hostname = true ->
  _clean_interface_hostname s hostname interface = inr out ->
  all_chars (fun c => negb (Ascii.eqb c "_")) out = true.
Proof.
  intros Hmap Hh. unfold _clean_interface_hostname.
  destruct (item0 (findall_interface_type _)) as [e|ty]; [discriminate|].
  destruct (INTERFACE_MAP s !! ty) as [short|] eqn:Hty; [|discriminate].
  pose proof (Hmap _ _ Hty) as Hshort. cbn beta in Hshort.
  destruct (item0 (findall_interface_number _)) as [e|n] eqn:Hn.
  - cbn [String.length Nat.eqb]. intros [= <-].
    rewrite !all_chars_app, Hh, Hshort. reflexivity.
  - pose proof (interface_number_all_chars _ _ _
                  (normalize_separators_no_underscore interface) Hn) as Hnum.
    destruct (String.length n =? 0)%nat; intros [= <-];
      rewrite !all_chars_app, Hh, Hshort, ?Hnum; reflexivity.
Qed.

Lemma clean_row_hostname_no_underscore
    (s : settings) (x y : gmap string string) :
  map_Forall (fun _ short =>
                all_chars (fun c => negb (Ascii.eqb c "_")) short = true)
    (INTERFACE_MAP s) ->
  snd (clean_row s x) = inr y ->
  exists hh,
    y !! "device_hostname" = Some hh /\
    all_chars (fun c => negb (Ascii.eqb c "_")) hh = true.
Proof.
  intros Hmap. rewrite clean_row_result.
  destruct (x !! "device_hostname") as [dh|]; [|discriminate].
  cbv zeta.
  pose proof (clean_device_hostname_no_underscore dh) as Hdev.
  destruct (x !! "interface_name") as [i|].
  - destruct (0 <? String.length i)%nat.
    + destruct (_clean_interface_hostname s _ i) as [e|cleaned] eqn:Hi.
      * destruct (x !! "ip_address"); [|discriminate].
        intros [= <-]. rewrite lookup_insert_eq. eauto.
      * intros [= <-]. rewrite lookup_insert_eq.
        eexists. split; [reflexivity|].
        eapply clean_interface_hostname_no_underscore; eassumption.
    + intros [= <-]. rewrite lookup_insert_eq. eauto.
  - intros [= <-]. rewrite lookup_insert_eq. eauto.
Qed.

Lemma prepare_hostname_no_underscore
    (s : settings) (address_table : list (gmap string string))
    (table : list address_data) :
  map_Forall (fun _ short =>
                all_chars (fun c => negb (Ascii.eqb c "_")) short = true)
    (INTERFACE_MAP s) ->
  snd (prepare s address_table) = inr table ->
  Forall (fun kw => exists hh,
              kw_hostname kw = VStr hh /\
              all_chars (fun c => negb (Ascii.eqb c "_")) hh = true) table.
Proof.
  intros Hmap. unfold prepare. rewrite snd_bind.
  destruct (snd (for_each _ address_table [])) as [e|cleaned] eqn:Hc;
    [discriminate|].
  intros Ht.
  destruct (for_each_snoc_inv (clean_row s) _ _ _ Hc) as (ys & -> & Hys).
  destruct (for_each_snoc_inv (fun address => lift (to_address_data address))
              _ _ _ Ht) as (kws & -> & Hkws).
  cbn [app] in *. clear Hc Ht.
  revert kws Hkws. induction Hys as [|x y xs ys Hxy _ IH]; intros kws Hkws.
  - inversion Hkws. constructor.
  - inversion Hkws as [|y' kw ys' kws' Hkw Hrest]; subst.
    constructor; [|apply IH; assumption].
    destruct (clean_row_hostname_no_underscore s x y Hmap Hxy)
      as (hh & Hhh & Hq).
    unfold lift in Hkw. cbn [snd] in Hkw.
    unfold to_address_data, getitem in Hkw. rewrite Hhh in Hkw.
    destruct (y !! "ip_address"); [|discriminate].
    injection Hkw as <-. cbn [kw_hostname]. eauto.
Qed.

Lemma built_elem_of
    (s : settings) (dns : resolver) (table : list address_data)
    (obj : Address_FQDN) :
  obj ∈ built s dns table ->
  exists kw, kw ∈ table /\ snd (construct s dns kw) = inr obj.
Proof.
  unfold built. intros (kw & Hin & Hkw)%list_elem_of_omap.
  exists kw. split; [exact Hin|].
  destruct (snd (construct s dns kw)); congruence.
Qed.

Lemma main_returns_data_inv
    (s : settings) (dns : resolver)
    (address_table : list (gmap string string)) (r : main_return)
    (address_objects : list Address_FQDN) :
  main_returns s dns address_table (inr r) ->
  data r = Some address_objects ->
  exists table,
    snd (prepare s address_table) = inr table /\
    Permutation (built s dns table) address_objects.
Proof.
  intros H Hdata. remember (inr r) as out eqn:Hout.
  destruct H as [Hmt | Hmt Hempty | e Hmt _ He | table objs Hmt _ Ht Hperm].
  - destruct address_table as [|row rows].
    + cbn in Hout. injection Hout as <-. discriminate Hdata.
    + destruct (snd (prepare s (row :: rows))) as [e|table] eqn:Hprep.
      * unfold main_sequential in Hout. cbn [length Nat.eqb] in Hout.
        rewrite snd_bind, Hprep in Hout. discriminate.
      * rewrite (main_sequential_returns s dns _ table) in Hout;
          [|discriminate|exact Hprep].
        injection Hout as <-. cbn in Hdata. injection Hdata as <-.
        exists table. split; reflexivity.
  - injection Hout as <-. discriminate Hdata.
  - discriminate.
  - injection Hout as <-. cbn in Hdata. injection Hdata as <-. eauto.
Qed.

(** X18: about [main]: when no abbreviation of [INTERFACE_MAP] holds an
    underscore, as in the shipped table, the [hostname] of every record that
    [main] returns holds no underscore and no uppercase letter, whether it
    was made from the device hostname alone or with an interface name. *)
Theorem main_records_hostname_alphabet
    (s : settings) (dns : resolver)
    (address_table : list (gmap string string)) (r : main_return)
    (address_objects : list Address_FQDN) :
  map_Forall (fun _ short =>
                all_chars (fun c => negb (Ascii.eqb c "_")) short = true)
    (INTERFACE_MAP s) ->
  main_returns s dns address_table (inr r) ->
  data r = Some address_objects ->
  Forall (fun obj =>
            all_chars (fun c => negb (Ascii.eqb c "_")) (hostname obj) = true /\
            all_chars (fun c => negb (Py.is_upper c)) (hostname obj) = true)
    address_objects.
Proof.
  intros Hmap H Hdata.
  destruct (main_returns_data_inv _ _ _ _ _ H Hdata) as (table & Hprep & Hperm).
  pose proof (prepare_hostname_no_underscore _ _ _ Hmap Hprep) as Hkw.
  apply Forall_forall. intros obj Hobj. rewrite <- Hperm in Hobj.
  destruct (built_elem_of _ _ _ _ Hobj) as (kw & Hin & Hc).
  destruct (proj1 (Forall_forall _ _) Hkw _ Hin) as (hh & Hhh & Hq).
  unfold construct in Hc. rewrite Hhh in Hc.
  destruct (returned_record_hostname _ _ _ _ _ _ Hc) as (raw & [= <-] & _ & ->).
  split; [|apply lower_no_upper].
  apply lower_no_underscore. unfold Py.strip.
  apply lstrip_all_chars, rstrip_all_chars, Hq.
Qed.

Lemma main_records_hostname_alphabet_witness :
  map_Forall (fun _ short =>
                all_chars (fun c => negb (Ascii.eqb c "_")) short = true)
    (INTERFACE_MAP shipped) /\
  main_returns shipped no_dns [row_wireless]
    (inr {| status := true; data := Some [record_sw1_no_dns] |}) /\
  all_chars (fun c => negb (Ascii.eqb c "_")) (hostname record_sw1_no_dns)
  = true.
Proof.
  assert (Hmap : map_Forall
                   (fun _ short =>
                      all_chars (fun c => negb (Ascii.eqb c "_")) short = true)
                   (INTERFACE_MAP shipped)).
  { apply (bool_decide_unpack _). vm_compute. reflexivity. }
  assert (Hprep : exists table, snd (prepare shipped [row_wireless]) = inr table
                    /\ built shipped no_dns table = [record_sw1_no_dns]).
  { eexists. split; vm_compute; reflexivity. }
  destruct Hprep as (table & Hprep & Hbuilt).
  assert (H : main_returns shipped no_dns [row_wireless]
                (inr {| status := true; data := Some [record_sw1_no_dns] |})).
  { eapply main_pool; [reflexivity | discriminate | exact Hprep |].
    rewrite Hbuilt. reflexivity. }
  split; [exact Hmap|]. split; [exact H|].
  pose proof (main_records_hostname_alphabet _ _ _ _ _ Hmap H eq_refl) as Hall.
  inversion Hall as [|obj objs [Hus _] _]; subst. exact Hus.
Defined.

(** ** Fixed points of the device normaliser *)

Lemma collapse_length (x : string) :
  (String.length (Py.replace "--" "-" x) <= String.length x)%nat /\
  (has_double_dash x = true ->
   (String.length (Py.replace "--" "-" x) < String.length x)%nat).
Proof.
  remember (String.length x) as n eqn:Hn.
  revert x Hn. induction (lt_wf n) as [n _ IH]. intros x Hn.
  destruct x as [|c x]; [subst n; split; [reflexivity|discriminate]|].
  destruct (Py.startswith "--" (String c x)) eqn:Hsw.
  - rewrite startswith_double_dash in Hsw.
    apply andb_true_iff in Hsw as [->%Ascii.eqb_eq Hx].
    destruct x as [|d x]; [discriminate|].
    cbn [begins_with] in Hx. apply Ascii.eqb_eq in Hx. subst d.
    rewrite collapse_pair.
    destruct (IH (String.length x)) with (x := x) as [Hle _];
      [subst n; cbn; lia | reflexivity |].
    subst n. cbn [String.length]. split; [lia | intros _; lia].
  - rewrite (collapse_other _ _ Hsw).
    destruct (IH (String.length x)) with (x := x) as [Hle Hlt];
      [subst n; cbn; lia | reflexivity |].
    subst n. cbn [String.length]. split; [lia|].
    cbn [has_double_dash]. rewrite startswith_double_dash in Hsw.
    rewrite startswith_dash, Hsw. cbn [orb]. intros Hdd.
    specialize (Hlt Hdd). lia.
Qed.

Lemma canonical_chars_pass_through (h : string) :
  all_chars canonical_char h = true ->
  Py.replace "_" "-" (first_label (Py.lower h)) = h.
Proof.
  intros Hchars. unfold canonical_char in Hchars.
  rewrite !all_chars_and in Hchars.
  apply andb_true_iff in Hchars as [[Hup Hdot]%andb_true_iff Hus].
  rewrite (lower_fixed h Hup). unfold first_label.
  rewrite (contains_char_absent "." h Hdot).
  apply (replace_char_absent "_" "-" h Hus).
Qed.

(** X5: about [_clean_device_hostname] on a hostname of ASCII characters:
    it is returned unchanged exactly when it is canonical: no uppercase
    letter, no dot, no underscore and no two dashes in a row.  (A character
    outside ASCII may be changed by the lowering of Python, and the
    statement is not made.) *)
Theorem clean_device_hostname_fixed_point_iff (h : string) :
  all_chars is_ascii h = true ->
  (_clean_device_hostname h = h <-> canonical h = true).
Proof.
  intros _.
  split; [|apply clean_device_hostname_canonical].
  intros Hfix.
  assert (Hchars : all_chars canonical_char h = true).
  { rewrite <- Hfix. apply clean_device_hostname_all_chars. }
  unfold canonical. rewrite Hchars. cbn [andb].
  destruct (has_double_dash h) eqn:Hdd; [exfalso|reflexivity].
  rewrite clean_device_hostname_steps in Hfix.
  rewrite (canonical_chars_pass_through h Hchars) in Hfix.
  destruct (collapse_length h) as [_ Hlt]. specialize (Hlt Hdd).
  destruct (collapse_length (Py.replace "--" "-" h)) as [Hle _].
  rewrite Hfix in Hle. lia.
Qed.

Lemma clean_device_hostname_fixed_point_iff_witness :
  all_chars is_ascii "core--sw1" = true /\
  canonical "core--sw1" = false /\
  _clean_device_hostname "core--sw1" <> "core--sw1".
Proof.
  split; [reflexivity|]. split; [reflexivity|].
  intros Hfix.
  apply (clean_device_hostname_fixed_point_iff "core--sw1" eq_refl) in Hfix.
  discriminate Hfix.
Defined.


(** ** The address fields of a record *)

Lemma split_nonempty (sep : ascii) (x : string) : Py.split sep x <> [].
Proof.
  destruct x as [|c x]; [discriminate|].
  cbn [Py.split]. destruct (Ascii.eqb c sep); [discriminate|].
  destruct (Py.split sep x); discriminate.
Qed.

Lemma join_dots_split (x : string) :
  ipaddress.join_dots (Py.split "." x) = x.
Proof.
  induction x as [|c x IH]; [reflexivity|].
  cbn [Py.split]. pose proof (split_nonempty "." x) as Hne.
  destruct (Ascii.eqb_spec c ".") as [->|Hc].
  - destruct (Py.split "." x) as [|w ws]; [congruence|].
    change (ipaddress.join_dots (EmptyString :: w :: ws))
      with (String "." (ipaddress.join_dots (w :: ws))).
    rewrite IH. reflexivity.
  - destruct (Py.split "." x) as [|w ws]; [congruence|].
    rewrite <- IH. destruct ws as [|w' ws]; reflexivity.
Qed.

Lemma is_digit_inv (c : ascii) :
  Py.is_digit c = true ->
  In c ["0"; "1"; "2"; "3"; "4"; "5"; "6"; "7"; "8"; "9"]%char.
Proof.
  destruct c as [[] [] [] [] [] [] [] []]; intros H;
    first [discriminate H | cbn; auto 12].
Qed.

Lemma parse_octet_round_trip (octet_str : string) (b : N) :
  ipaddress._parse_octet octet_str = Some b ->
  b <= 255 /\ ipaddress.str_of_N b = octet_str /\
  all_chars Py.is_digit octet_str = true.
Proof.
  unfold ipaddress._parse_octet.
  destruct octet_str as [|c1 rest]; [discriminate|].
  destruct (ipaddress.all_digits (String c1 rest)) eqn:Hdigits;
    [|discriminate].
  cbn [negb].
  destruct rest as [|c2 [|c3 [|c4 rest]]];
    [| | |cbn [String.length]; discriminate].
  all: cbn [ipaddress.all_digits] in Hdigits.
  all: repeat match type of Hdigits with
              | (_ && _) = true =>
                  let Hc := fresh "Hc" in
                  apply andb_true_iff in Hdigits as [Hc Hdigits];
                  apply is_digit_inv in Hc
              end.
  all: repeat match goal with
              | H : In _ _ |- _ =>
                  cbn [In] in H;
                  repeat (destruct H as [<-|H]); [..|contradiction]
              end.
  all: vm_compute; intros H;
    first [discriminate H
          | injection H as <-; split; [discriminate|split; reflexivity]].
Qed.

Lemma to_bytes_from_bytes (b1 b2 b3 b4 : N) :
  b1 <= 255 -> b2 <= 255 -> b3 <= 255 -> b4 <= 255 ->
  ipaddress.to_bytes (ipaddress.from_bytes [b1; b2; b3; b4])
  = [b1; b2; b3; b4].
Proof.
  intros H1 H2 H3 H4. unfold ipaddress.to_bytes, ipaddress.from_bytes.
  cbn [fold_left].
  repeat f_equal; zify; Z.to_euclidean_division_equations; lia.
Qed.

Lemma parse_compressed (text : string) (a : ipaddress.IPv4Address) :
  ipaddress.parse text = Some a ->
  ipaddress.compressed a = text /\
  exists o1 o2 o3 o4,
    Py.split "." text = [o1; o2; o3; o4] /\
    Forall (fun o => all_chars Py.is_digit o = true) [o1; o2; o3; o4].
Proof.
  unfold ipaddress.parse.
  destruct (Py.contains_char "/" text); [discriminate|].
  destruct text as [|c0 text0] eqn:Htext; [discriminate|]. rewrite <- Htext.
  pose proof (join_dots_split text) as Hjoin.
  destruct (Py.split "." text) as [|o1 [|o2 [|o3 [|o4 [|o5 os]]]]];
    try discriminate.
  cbn [length Nat.eqb negb mapM].
  destruct (ipaddress._parse_octet o1) as [b1|] eqn:E1; [|discriminate].
  destruct (ipaddress._parse_octet o2) as [b2|] eqn:E2; [|discriminate].
  destruct (ipaddress._parse_octet o3) as [b3|] eqn:E3; [|discriminate].
  destruct (ipaddress._parse_octet o4) as [b4|] eqn:E4; [|discriminate].
  cbn [mbind option_bind mret option_ret]. intros [= <-].
  destruct (parse_octet_round_trip _ _ E1) as (L1 & S1 & D1).
  destruct (parse_octet_round_trip _ _ E2) as (L2 & S2 & D2).
  destruct (parse_octet_round_trip _ _ E3) as (L3 & S3 & D3).
  destruct (parse_octet_round_trip _ _ E4) as (L4 & S4 & D4).
  split.
  - unfold ipaddress.compressed. cbn [ipaddress._ip].
    rewrite (to_bytes_from_bytes _ _ _ _ L1 L2 L3 L4).
    cbn [map]. rewrite S1, S2, S3, S4. exact Hjoin.
  - exists o1, o2, o3, o4. split; [reflexivity|]. repeat constructor; assumption.
Qed.

Lemma digit_not_space (c : ascii) :
  Py.is_digit c = true -> Py.is_space c = false.
Proof. destruct c as [[] [] [] [] [] [] [] []]; intros H; first [discriminate H | reflexivity]. Qed.

Lemma rstrip_fixed (x : string) :
  all_chars (fun c => negb (Py.is_space c)) x = true -> Py.rstrip x = x.
Proof.
  induction x as [|c x IH]; [reflexivity|].
  cbn [all_chars Py.rstrip]. intros [Hc Hx]%andb_true_iff.
  rewrite (IH Hx). apply negb_true_iff in Hc. rewrite Hc.
  destruct x; reflexivity.
Qed.

Lemma strip_fixed (x : string) :
  all_chars (fun c => negb (Py.is_space c)) x = true -> Py.strip x = x.
Proof.
  intros H. unfold Py.strip. rewrite (rstrip_fixed x H).
  destruct x as [|c x]; [reflexivity|].
  cbn [all_chars] in H. apply andb_true_iff in H as [Hc _].
  apply negb_true_iff in Hc. cbn [Py.lstrip]. rewrite Hc. reflexivity.
Qed.

(** X13: about [Address_FQDN.__init__] with the address given as text: the
    record keeps the text unchanged as [ip_address], the text is four runs
    of digits joined by dots, and [ptr_record] is these four runs in reverse
    order followed by the suffix of the reverse zone. *)
Theorem record_address_fields
    (s : settings) (dns : resolver) (text : string) (h d : value)
    (r : Address_FQDN) :
  snd (Address_FQDN_init s dns (VStr text) h d) = inr r ->
  ip_address r = text /\
  exists o1 o2 o3 o4,
    text = o1 +:+ "." +:+ o2 +:+ "." +:+ o3 +:+ "." +:+ o4 /\
    Forall (fun o => all_chars Py.is_digit o = true) [o1; o2; o3; o4] /\
    ptr_record r
    = (o4 +:+ "." +:+ o3 +:+ "." +:+ o2 +:+ "." +:+ o1) +:+ ".in-addr.arpa".
Proof.
  intros H.
  destruct (Address_FQDN_init_returns _ _ _ _ _ _ H)
    as (ip & hn & dm & fwd & rvs & Hip & _ & _ & _ & _ & ->).
  cbn [ip_address ptr_record].
  assert (Hparse : ipaddress.parse text = Some ip).
  { unfold init_ipv4_address in Hip.
    destruct (ipaddress.parse text); [|cbn in Hip; discriminate].
    cbn in Hip. congruence. }
  destruct (parse_compressed _ _ Hparse)
    as (Hc & o1 & o2 & o3 & o4 & Hsplit & Hdigits).
  assert (Htext : text = o1 +:+ "." +:+ o2 +:+ "." +:+ o3 +:+ "." +:+ o4).
  { rewrite <- (join_dots_split text), Hsplit. reflexivity. }
  assert (Hns : all_chars (fun c => negb (Py.is_space c)) text = true).
  { assert (Hd : forall o, all_chars Py.is_digit o = true ->
                           all_chars (fun c => negb (Py.is_space c)) o = true).
    { intros o. apply all_chars_weaken. intros c Hcd.
      rewrite (digit_not_space c Hcd). reflexivity. }
    inversion Hdigits as [|? ? D1 Hd1]; subst.
    inversion Hd1 as [|? ? D2 Hd2]; subst.
    inversion Hd2 as [|? ? D3 Hd3]; subst.
    inversion Hd3 as [|? ? D4 _]; subst.
    rewrite Htext, !all_chars_app, (Hd _ D1), (Hd _ D2), (Hd _ D3), (Hd _ D4).
    reflexivity. }
  split.
  - rewrite Hc. apply strip_fixed, Hns.
  - exists o1, o2, o3, o4. split; [exact Htext|]. split; [exact Hdigits|].
    unfold ipaddress.reverse_pointer. rewrite Hc, Hsplit. reflexivity.
Qed.

Lemma record_address_fields_witness :
  snd (Address_FQDN_init shipped no_dns (VStr "10.0.0.1") (VStr "sw1") VNone)
  = inr record_sw1_no_dns /\
  ip_address record_sw1_no_dns = "10.0.0.1".
Proof.
  assert (H : snd (Address_FQDN_init shipped no_dns
                     (VStr "10.0.0.1") (VStr "sw1") VNone)
              = inr record_sw1_no_dns)
    by (vm_compute; reflexivity).
  split; [exact H|].
  destruct (record_address_fields _ _ _ _ _ _ H) as [Hip _]. exact Hip.
Defined.

(** ** A column name given twice *)

(** X21: about [table_to_dictionary]: when a column name occurs more than once in
    the header, the dictionary of a row that reaches the last occurrence
    holds the cell under that last occurrence. *)
Theorem table_to_dictionary_duplicate_column
    (before after row : list string) (c v : string) :
  c ∉ after ->
  row !! length before = Some v ->
  dict (zip (before ++ c :: after) row) !! c = Some v.
Proof.
  intros Hafter. unfold dict. generalize (∅ : gmap string string).
  revert row. induction before as [|c0 cs IH]; intros row m Hv.
  - destruct row as [|v0 vs]; [discriminate|].
    cbn in Hv. injection Hv as ->.
    cbn [app zip zip_with fold_left fst snd].
    rewrite (dict_fold_lookup_other _ _ _ _ Hafter), lookup_insert_eq.
    reflexivity.
  - destruct row as [|v0 vs]; [discriminate|].
    cbn [app zip zip_with fold_left fst snd]. apply IH. exact Hv.
Qed.

Lemma table_to_dictionary_duplicate_column_witness :
  ("ip_address" ∉ ["device_hostname"]) /\
  dict (zip (["ip_address"] ++ "ip_address" :: ["device_hostname"])
          ["10.0.0.1"; "10.0.0.9"; "sw1"]) !! "ip_address"
  = Some "10.0.0.9".
Proof.
  assert (Hnot : "ip_address" ∉ ["device_hostname"]).
  { apply (bool_decide_unpack _). vm_compute. reflexivity. }
  split; [exact Hnot|].
  apply (table_to_dictionary_duplicate_column
           ["ip_address"] ["device_hostname"]
           ["10.0.0.1"; "10.0.0.9"; "sw1"] "ip_address" "10.0.0.9" Hnot).
  reflexivity.
Defined.
